(** * django-rq-scheduler: the scheduling core of [scheduler/models/scheduled_job.py]

    A shallow embedding of the job models ([BaseJob], [ScheduledJob],
    [RepeatableJob], [CronJob]) and of [callback_save_job], followed by the
    properties of the scheduling state machine.

    Conventions of the embedding.
    - An instant ([datetime]) is a number of microseconds since the epoch, in
      [Z]; a [timedelta] is a number of microseconds.  [interval_seconds()]
      is a number of seconds.  The arithmetic of [timestamp()], of the float
      division and of [math.ceil] is exact here: binary floating point and
      the range limits of [datetime]/[timedelta] are outside the model.
    - [timezone.now()] is a reading of a wall clock.  The n-th reading made
      since the start is [now_at n]; the world counts the readings made so
      far.  Every call of [timezone.now()] in the source is one reading.
    - The queue of django_rq and the storage layer are external: the model
      keeps, per queue name, the ids of the scheduled-job registry and of the
      pending list, a table of stored rows, and a log of the calls made to
      both.  Looking a queue up by name is taken to succeed.
    - A method of a model instance is a computation over the instance
      ([self]) and the world, which may raise. *)

From Stdlib Require Import ZArith String List Bool Lia.
Import ListNotations.

Local Open Scope string_scope.
Local Open Scope Z_scope.

(** ** Data model *)

(** The concrete model classes ([JOB_TYPE] of each). *)
Inductive JOB_TYPE := TScheduledJob | TRepeatableJob | TCronJob.

(** [RepeatableJob.UNITS]. *)
Inductive UNITS := seconds | minutes | hours | days | weeks.

(** The fields every model inherits from [BaseJob].  [repeat] is kept with
    the kinds below: [ScheduledJob] replaces it by the class attribute
    [repeat = None]. *)
Record BaseFields := mkBase {
  id : option Z;
  name : string;
  callable : string;
  enabled : bool;
  queue : string;
  job_id : option string;
  at_front : option bool;
  timeout : option Z;
  result_ttl : option Z
}.

Inductive KindFields :=
| ScheduledJobFields (scheduled_time : option Z)
| RepeatableJobFields (scheduled_time : option Z) (repeat : option Z)
                      (interval : Z) (interval_unit : UNITS)
| CronJobFields (repeat : option Z) (cron_string : string).

Record job := mkJob { base : BaseFields; kind : KindFields }.

Definition job_type (j : job) : JOB_TYPE :=
  match kind j with
  | ScheduledJobFields _ => TScheduledJob
  | RepeatableJobFields _ _ _ _ => TRepeatableJob
  | CronJobFields _ _ => TCronJob
  end.

(** [self.scheduled_time] of [ScheduledTimeMixin]. *)
Definition scheduled_time_of (j : job) : option Z :=
  match kind j with
  | ScheduledJobFields t => t
  | RepeatableJobFields t _ _ _ => t
  | CronJobFields _ _ => None
  end.

(** [self.repeat]: the class attribute [None] on a [ScheduledJob]. *)
Definition repeat_of (j : job) : option Z :=
  match kind j with
  | ScheduledJobFields _ => None
  | RepeatableJobFields _ r _ _ => r
  | CronJobFields r _ => r
  end.

Definition set_job_id (v : option string) (j : job) : job :=
  let b := base j in
  mkJob (mkBase (id b) (name b) (callable b) (enabled b) (queue b) v
                (at_front b) (timeout b) (result_ttl b)) (kind j).

Definition set_id (v : option Z) (j : job) : job :=
  let b := base j in
  mkJob (mkBase v (name b) (callable b) (enabled b) (queue b) (job_id b)
                (at_front b) (timeout b) (result_ttl b)) (kind j).

Definition set_enabled (v : bool) (j : job) : job :=
  let b := base j in
  mkJob (mkBase (id b) (name b) (callable b) v (queue b) (job_id b)
                (at_front b) (timeout b) (result_ttl b)) (kind j).

(** The two assignments of the catch-up ([self.scheduled_time += ...],
    [self.repeat = ...]); they exist on an interval record only. *)
Definition set_advance (t : option Z) (r : option Z) (j : job) : job :=
  match kind j with
  | RepeatableJobFields _ _ i u => mkJob (base j) (RepeatableJobFields t r i u)
  | _ => j
  end.

(** ** The external queue, the storage layer and the clock *)

(** What [enqueue_args] builds: the [meta] dictionary and the optional
    keyword arguments (a key that is not set is [None]). *)
Record kwargs := mkKwargs {
  meta_repeat : option Z;
  meta_job_type : JOB_TYPE;
  meta_interval : option Z;
  kw_at_front : option bool;
  kw_job_timeout : option Z;
  kw_result_ttl : option Z
}.

(** The job the executor hands to a callback: its id and
    [job.meta.get('job_type', None)]. *)
Record rq_job := mkRqJob { rq_id : string; meta_get_job_type : option JOB_TYPE }.

(** One queue of django_rq: the ids in its scheduled-job registry and the
    ids in its pending list. *)
Record RQueue := mkRQueue {
  scheduled_job_registry : list string;
  pending : list string
}.

(** The calls made to the external collaborators, oldest first. *)
Inductive event :=
| QueueRemove (q : string) (jid : string)
| RegistryRemove (q : string) (jid : string)
| EnqueueAt (q : string) (schedule_time : Z) (args : JOB_TYPE * option Z)
            (kw : kwargs) (jid : string)
| ModelSave (row : job)
| ModelDelete (row : job).

Record World := mkWorld {
  ticks : nat;                      (* readings of the clock made so far *)
  created : nat;                    (* jobs created by the queue so far *)
  queues : string -> RQueue;        (* get_queue(name) *)
  db : list job;                    (* stored rows of the three tables *)
  next_pk : JOB_TYPE -> Z;          (* the AutoField sequence of each table *)
  log : list event
}.

Inductive exn :=
| ZeroDivisionError
| TypeError
| AttributeError
| ValueError.

Inductive result (A : Type) :=
| Return (a : A)
| Raise (e : exn).
Arguments Return {A} a.
Arguments Raise {A} e.

(** The environment of a run: the wall clock, the ids the queue gives to
    the jobs it creates, and [tools.get_next_cron_time] (module
    [scheduler.tools] is not part of the sources read here; it is a
    parameter, [None] standing for a cron string croniter rejects). *)
Class Environment := mkEnv {
  now_at : nat -> Z;
  uuid4 : nat -> string;
  get_next_cron_time : string -> Z -> option Z
}.

(** The clock never runs backwards. *)
Definition clock_monotone `{Environment} : Prop :=
  forall n m : nat, (n <= m)%nat -> now_at n <= now_at m.

(** The queue never names a job by the empty string. *)
Definition ids_nonempty `{Environment} : Prop :=
  forall n : nat, uuid4 n <> "".

(** What validation reads from the configuration and from
    [scheduler.tools]: [RQ_SCHEDULER_INTERVAL] (the setting
    [DJANGO_RQ_SCHEDULER_INTERVAL], 60 when it is not set), the keys of
    [settings.RQ_QUEUES], and whether [tools.callable_func] resolves a
    callable (it returns) or not (it raises). *)
Class Settings := mkSettings {
  RQ_SCHEDULER_INTERVAL : Z;
  RQ_QUEUES : list string;
  callable_func : string -> bool
}.

(** ** Computations over an instance and the world *)

Record state := mkState { self : job; world : World }.

Definition M (A : Type) : Type := state -> result A * state.

Definition ret {A} (a : A) : M A := fun st => (Return a, st).

Definition raise {A} (e : exn) : M A := fun st => (Raise e, st).

Definition bind {A B} (m : M A) (k : A -> M B) : M B :=
  fun st =>
    match m st with
    | (Return a, st') => k a st'
    | (Raise e, st') => (Raise e, st')
    end.

Notation "x <- m ;; k" := (bind m (fun x => k))
  (at level 61, m at next level, right associativity).
Notation "m ;;; k" := (bind m (fun _ => k))
  (at level 61, right associativity).

Definition gets {A} (f : job -> World -> A) : M A :=
  fun st => (Return (f (self st) (world st)), st).

Definition modify_self (f : job -> job) : M unit :=
  fun st => (Return tt, mkState (f (self st)) (world st)).

Definition modify_world (f : World -> World) : M unit :=
  fun st => (Return tt, mkState (self st) (f (world st))).

Definition tick (w : World) : World :=
  mkWorld (S (ticks w)) (created w) (queues w) (db w) (next_pk w) (log w).

Definition set_queue (q : string) (rq : RQueue) (w : World) : World :=
  mkWorld (ticks w) (created w)
          (fun q' => if String.eqb q' q then rq else queues w q')
          (db w) (next_pk w) (log w).

Definition set_db (rows : list job) (w : World) : World :=
  mkWorld (ticks w) (created w) (queues w) rows (next_pk w) (log w).

Definition emit (e : event) (w : World) : World :=
  mkWorld (ticks w) (created w) (queues w) (db w) (next_pk w) (log w ++ [e])%list.

Definition next_created (w : World) : World :=
  mkWorld (ticks w) (S (created w)) (queues w) (db w) (next_pk w) (log w).

Definition JOB_TYPE_eqb (a b : JOB_TYPE) : bool :=
  match a, b with
  | TScheduledJob, TScheduledJob => true
  | TRepeatableJob, TRepeatableJob => true
  | TCronJob, TCronJob => true
  | _, _ => false
  end.

Definition bump_pk (m : JOB_TYPE) (w : World) : World :=
  mkWorld (ticks w) (created w) (queues w) (db w)
          (fun m' => if JOB_TYPE_eqb m' m then next_pk w m + 1 else next_pk w m')
          (log w).

(** Python truthiness of an optional string, integer and boolean. *)
Definition truthy_str (s : option string) : bool :=
  match s with
  | Some s => negb (String.eqb s "")
  | None => false
  end.

Definition truthy_int (n : option Z) : bool :=
  match n with
  | Some n => negb (n =? 0)
  | None => false
  end.

Definition truthy_bool (b : option bool) : bool :=
  match b with
  | Some b => b
  | None => false
  end.

(** [math.ceil(n / d)] for [d <> 0], on exact quotients. *)
Definition ceil_div (n d : Z) : Z := - ((- n) / d).

(** [timedelta(seconds=s)], in microseconds. *)
Definition timedelta_seconds (s : Z) : Z := s * 1000000.

Section External.
Context `{Environment}.

(** [timezone.now()]: one more reading of the clock. *)
Definition timezone_now : M Z :=
  fun st => (Return (now_at (ticks (world st))),
             mkState (self st) (tick (world st))).

(** [queue.scheduled_job_registry.get_job_ids()]. *)
Definition get_job_ids (q : string) (w : World) : list string :=
  scheduled_job_registry (queues w q).

(** [queue.remove(job_id)]: the id leaves the pending list; removing an
    id that is not there does nothing. *)
Definition queue_remove (q jid : string) (w : World) : World :=
  let rq := queues w q in
  emit (QueueRemove q jid)
    (set_queue q
       (mkRQueue (scheduled_job_registry rq)
                 (filter (fun x => negb (String.eqb x jid)) (pending rq)))
       w).

(** [queue.scheduled_job_registry.remove(job_id)]. *)
Definition registry_remove (q jid : string) (w : World) : World :=
  let rq := queues w q in
  emit (RegistryRemove q jid)
    (set_queue q
       (mkRQueue (filter (fun x => negb (String.eqb x jid))
                         (scheduled_job_registry rq))
                 (pending rq))
       w).

(** [queue.enqueue_at(schedule_time, tools.run_job, args=..., **kwargs)]:
    the queue creates a job, names it, and puts its id in the
    scheduled-job registry.  [schedule_time] is [None] when
    [utc(self.scheduled_time)] was not given a datetime; the queue is taken
    to refuse that by raising, before it creates anything. *)
Definition enqueue_at (q : string) (schedule_time : option Z)
           (args : JOB_TYPE * option Z) (kw : kwargs) : M string :=
  fun st =>
    match schedule_time with
    | None => (Raise AttributeError, st)
    | Some t =>
        let w := world st in
        let rq := queues w q in
        let jid := uuid4 (created w) in
        (Return jid,
         mkState (self st)
           (emit (EnqueueAt q t args kw jid)
              (set_queue q
                 (mkRQueue (jid :: scheduled_job_registry rq) (pending rq))
                 (next_created w))))
    end.

(** Rows of one table are told apart by their primary key. *)
Definition same_row (a b : job) : bool :=
  JOB_TYPE_eqb (job_type a) (job_type b) &&
  match id (base a), id (base b) with
  | Some x, Some y => x =? y
  | _, _ => false
  end.

Definition upsert (j : job) (rows : list job) : list job :=
  if existsb (same_row j) rows
  then map (fun r => if same_row j r then j else r) rows
  else (rows ++ [j])%list.

(** [super().save()]: a row with the instance's primary key is replaced;
    an instance without one is inserted under the next key of its table.
    The bookkeeping columns of [TimeStampedModel] belong to the storage
    layer and are not kept. *)
Definition model_save : M unit :=
  fun st =>
    let j := self st in
    let w := world st in
    match id (base j) with
    | Some _ =>
        (Return tt, mkState j (emit (ModelSave j) (set_db (upsert j (db w)) w)))
    | None =>
        let j' := set_id (Some (next_pk w (job_type j))) j in
        (Return tt,
         mkState j'
           (emit (ModelSave j')
              (set_db (db w ++ [j'])%list (bump_pk (job_type j) w))))
    end.

(** [super().delete()]: refuses an instance that was never stored;
    otherwise the row goes and the instance loses its primary key. *)
Definition model_delete : M unit :=
  fun st =>
    let j := self st in
    let w := world st in
    match id (base j) with
    | None => (Raise ValueError, st)
    | Some _ =>
        (Return tt,
         mkState (set_id None j)
           (emit (ModelDelete j)
              (set_db (filter (fun r => negb (same_row j r)) (db w)) w)))
    end.

(** [model.objects.filter(job_id=jid).first()]: of the rows of the table
    of [model] whose [job_id] is [jid], the first in the order of the
    models ([Meta.ordering], by [name]). *)
Definition has_job_id (model : JOB_TYPE) (jid : string) (r : job) : bool :=
  JOB_TYPE_eqb (job_type r) model &&
  match job_id (base r) with
  | Some x => String.eqb x jid
  | None => false
  end.

Definition first_by_name (rows : list job) : option job :=
  fold_right
    (fun r acc =>
       match acc with
       | Some m => if String.leb (name (base r)) (name (base m))
                   then Some r else Some m
       | None => Some r
       end)
    None rows.

Definition objects_filter_first (model : JOB_TYPE) (jid : string)
           (rows : list job) : option job :=
  first_by_name (filter (has_job_id model jid) rows).
End External.

(** ** The model classes *)

Module BaseJob.
Section Methods.
Context `{Environment}.

(** [is_scheduled]: a record with no id (or an empty one) is not
    scheduled; otherwise its id is looked up in the registry of its
    queue. *)
Definition is_scheduled (self : job) (w : World) : bool :=
  if negb (truthy_str (job_id (base self))) then false
  else
    match job_id (base self) with
    | Some jid => existsb (String.eqb jid) (get_job_ids (queue (base self)) w)
    | None => false
    end.

Definition enqueue_args (self : job) : kwargs :=
  mkKwargs (repeat_of self) (job_type self) None
           (if truthy_bool (at_front (base self)) then at_front (base self) else None)
           (if truthy_int (timeout (base self)) then timeout (base self) else None)
           (result_ttl (base self)).

(** The checks shared by every kind: already scheduled, then disabled. *)
Definition ready_for_schedule (self : job) (w : World) : bool :=
  if is_scheduled self w then false
  else if negb (enabled (base self)) then false
  else true.

Definition unschedule : M bool :=
  q <- gets (fun self _ => queue (base self)) ;;
  scheduled <- gets is_scheduled ;;
  (if scheduled
   then
     jid <- gets (fun self _ => job_id (base self)) ;;
     match jid with
     | Some jid =>
         modify_world (queue_remove q jid) ;;;
         modify_world (registry_remove q jid)
     | None => ret tt
     end
   else ret tt) ;;;
  modify_self (set_job_id None) ;;;
  ret true.
End Methods.

Section Validation.
Context `{Settings}.

(** [clean_callable], [clean_queue], [clean]: [Raise ValueError] stands
    for the [ValidationError]. *)
Definition clean_callable : M unit :=
  self <- gets (fun self _ => self) ;;
  if callable_func (callable (base self)) then ret tt else raise ValueError.

Definition clean_queue : M unit :=
  self <- gets (fun self _ => self) ;;
  if existsb (String.eqb (queue (base self))) RQ_QUEUES
  then ret tt
  else raise ValueError.

Definition clean : M unit :=
  clean_callable ;;;
  clean_queue.
End Validation.
End BaseJob.

Module ScheduledTimeMixin.
(** [_schedule_time]: [utc(self.scheduled_time)], which is a datetime only
    when the field holds one. *)
Definition _schedule_time : M (option Z) :=
  gets (fun self _ => scheduled_time_of self).
End ScheduledTimeMixin.

Module ScheduledJob.
Section Methods.
Context `{Environment}.

Definition ready_for_schedule : M bool :=
  ok <- gets BaseJob.ready_for_schedule ;;
  if negb ok then ret false
  else
    t <- gets (fun self _ => scheduled_time_of self) ;;
    match t with
    | None => ret true
    | Some t =>
        now <- timezone_now ;;
        if t <? now then ret false else ret true
    end.
End Methods.
End ScheduledJob.

Module RepeatableJob.
Section Methods.
Context `{Environment}.

(** [interval_seconds]: the [timedelta] of [interval] units of
    [interval_unit], in seconds. *)
Definition unit_seconds (u : UNITS) : Z :=
  match u with
  | seconds => 1
  | minutes => 60
  | hours => 3600
  | days => 86400
  | weeks => 604800
  end.

Definition interval_seconds (self : job) : Z :=
  match kind self with
  | RepeatableJobFields _ _ i u => i * unit_seconds u
  | _ => 0
  end.

(** [clean_result_ttl]: [Raise ValueError] stands for the
    [ValidationError]. *)
Definition clean_result_ttl : M unit :=
  self <- gets (fun self _ => self) ;;
  if truthy_int (result_ttl (base self))
     && negb (match result_ttl (base self) with
              | Some t => t =? -1
              | None => false
              end)
     && match result_ttl (base self) with
        | Some t => t <? interval_seconds self
        | None => false
        end
     && truthy_int (repeat_of self)
  then raise ValueError
  else ret tt.

Definition enqueue_args (self : job) : kwargs :=
  let res := BaseJob.enqueue_args self in
  mkKwargs (meta_repeat res) (meta_job_type res)
           (Some (interval_seconds self))
           (kw_at_front res) (kw_job_timeout res) (kw_result_ttl res).

(** [self.scheduled_time < timezone.now()]: the clock is read, then the
    comparison raises when the field holds no datetime. *)
Definition scheduled_time_lt_now : M (Z * bool) :=
  t <- gets (fun self _ => scheduled_time_of self) ;;
  now <- timezone_now ;;
  match t with
  | Some t => ret (t, t <? now)
  | None => raise TypeError
  end.

Definition ready_for_schedule : M bool :=
  ok <- gets BaseJob.ready_for_schedule ;;
  if negb ok then ret false
  else
    c <- scheduled_time_lt_now ;;
    (if snd c
     then
       now <- timezone_now ;;
       secs <- gets (fun self _ => interval_seconds self) ;;
       gap <- (if secs =? 0 then raise ZeroDivisionError
               else ret (ceil_div (now - fst c) (timedelta_seconds secs))) ;;
       r <- gets (fun self _ => repeat_of self) ;;
       if match r with
          | None => true
          | Some r => gap <=? r
          end
       then
         modify_self
           (set_advance (Some (fst c + timedelta_seconds (secs * gap)))
                        (match r with
                         | Some r => Some (r - gap)
                         | None => None
                         end))
       else ret tt
     else ret tt) ;;;
    c' <- scheduled_time_lt_now ;;
    if snd c' then ret false else ret true.
End Methods.

Section Validation.
Context `{Settings}.

(** [clean_interval_unit]: the interval must not be below
    [RQ_SCHEDULER_INTERVAL], and the remainder of the interval by it must
    be zero (taking a remainder by zero raises). *)
Definition clean_interval_unit : M unit :=
  self <- gets (fun self _ => self) ;;
  (if interval_seconds self <? RQ_SCHEDULER_INTERVAL
   then raise ValueError
   else ret tt) ;;;
  (if RQ_SCHEDULER_INTERVAL =? 0
   then raise ZeroDivisionError
   else if negb (interval_seconds self mod RQ_SCHEDULER_INTERVAL =? 0)
        then raise ValueError
        else ret tt).

Definition clean : M unit :=
  BaseJob.clean ;;;
  clean_interval_unit ;;;
  clean_result_ttl.
End Validation.
End RepeatableJob.

Module CronJob.
Section Methods.
Context `{Environment}.

(** [_schedule_time]: [tools.get_next_cron_time(self.cron_string)], the
    next match after the present instant. *)
Definition _schedule_time : M (option Z) :=
  self <- gets (fun self _ => self) ;;
  match kind self with
  | CronJobFields _ c =>
      now <- timezone_now ;;
      match get_next_cron_time c now with
      | Some t => ret (Some t)
      | None => raise ValueError
      end
  | _ => ret None
  end.
End Methods.
End CronJob.

(** ** Method resolution and the methods that rely on it

    [schedule], [save] and [delete] are written once in [BaseJob]; the
    [ready_for_schedule], [_schedule_time] and [enqueue_args] they call are
    those of the instance's class. *)
Section Dispatch.
Context `{Environment}.

Definition ready_for_schedule : M bool :=
  fun st =>
    match job_type (self st) with
    | TScheduledJob => ScheduledJob.ready_for_schedule st
    | TRepeatableJob => RepeatableJob.ready_for_schedule st
    | TCronJob => gets BaseJob.ready_for_schedule st
    end.

Definition _schedule_time : M (option Z) :=
  fun st =>
    match job_type (self st) with
    | TCronJob => CronJob._schedule_time st
    | _ => ScheduledTimeMixin._schedule_time st
    end.

Definition enqueue_args (self : job) : kwargs :=
  match job_type self with
  | TRepeatableJob => RepeatableJob.enqueue_args self
  | _ => BaseJob.enqueue_args self
  end.

Definition is_scheduled : job -> World -> bool := BaseJob.is_scheduled.

Definition unschedule : M bool := BaseJob.unschedule.

Definition schedule : M bool :=
  ready <- ready_for_schedule ;;
  if negb ready then ret false
  else
    schedule_time <- _schedule_time ;;
    kw <- gets (fun self _ => enqueue_args self) ;;
    self <- gets (fun self _ => self) ;;
    jid <- enqueue_at (queue (base self)) schedule_time
                      (job_type self, id (base self)) kw ;;
    modify_self (set_job_id (Some jid)) ;;;
    ret true.

(** [save(schedule_job=...)]. *)
Definition save (schedule_job : bool) : M unit :=
  model_save ;;;
  if schedule_job
  then schedule ;;; model_save
  else ret tt.

Definition delete : M unit :=
  unschedule ;;;
  model_delete.

(** The body of the callback once the record is found. *)
Definition reschedule : M unit :=
  unschedule ;;;
  schedule ;;;
  save true.

(** [callback_save_job(job, connection, result)]: the instance is a
    fresh object read from storage; only the world outlives the call. *)
Definition callback_save_job (j : rq_job) (w : World) : result unit * World :=
  match meta_get_job_type j with
  | None => (Return tt, w)
  | Some model =>
      match objects_filter_first model (rq_id j) (db w) with
      | Some scheduled_job =>
          let (r, st) := reschedule (mkState scheduled_job w) in
          (r, world st)
      | None => (Return tt, w)
      end
  end.
End Dispatch.

(** ** Vocabulary of the statements *)

(** The public operations on an instance. *)
Inductive operation :=
| op_ready_for_schedule
| op_schedule
| op_unschedule
| op_save (schedule_job : bool)
| op_delete
| op_reschedule.

(** The state an operation leaves, whether it returned or raised. *)
Definition run `{Environment} (o : operation) (st : state) : state :=
  match o with
  | op_ready_for_schedule => snd (ready_for_schedule st)
  | op_schedule => snd (schedule st)
  | op_unschedule => snd (unschedule st)
  | op_save b => snd (save b st)
  | op_delete => snd (delete st)
  | op_reschedule => snd (reschedule st)
  end.

(** The world after [n] more readings of the clock and nothing else. *)
Definition advance_clock (n : nat) (w : World) : World :=
  mkWorld (n + ticks w) (created w) (queues w) (db w) (next_pk w) (log w).

(** The reading the clock gives at the [k]-th next call of
    [timezone.now()] (the next call is [k = 0]). *)
Definition reading `{Environment} (w : World) (k : nat) : Z :=
  now_at (k + ticks w).

(** The record is an interval record of interval [i] [u] whose
    [scheduled_time] is set and not before [T]. *)
Definition due_not_before (T i : Z) (u : UNITS) (st : state) : Prop :=
  exists T' r',
    kind (self st) = RepeatableJobFields (Some T') r' i u /\ T <= T'.

(** The record is disabled and its id is not in the registry of its
    queue. *)
Definition disabled_idle (st : state) : Prop :=
  enabled (base (self st)) = false
  /\ is_scheduled (self st) (world st) = false.

(** Calls that take an entry out of the queue, and calls that put one in. *)
Definition is_removal (e : event) : Prop :=
  match e with
  | QueueRemove _ _ | RegistryRemove _ _ => True
  | _ => False
  end.

Definition is_enqueue (e : event) : Prop :=
  match e with
  | EnqueueAt _ _ _ _ _ => True
  | _ => False
  end.

(** The record is an interval record of interval [i] [u] whose [repeat]
    is unbounded if [r] is, and otherwise between 0 and the bound [r]. *)
Definition repeat_within (r : option Z) (i : Z) (u : UNITS) (st : state) : Prop :=
  exists t' r',
    kind (self st) = RepeatableJobFields t' r' i u
    /\ match r with
       | None => r' = None
       | Some R => exists R', r' = Some R' /\ 0 <= R' <= R
       end.

(** [m] keeps [P]: from a state where [P] holds, [m] ends (by returning or
    by raising) in a state where [P] holds. *)
Definition preserves {A} (P : state -> Prop) (m : M A) : Prop :=
  forall st, P st -> P (snd (m st)).

(** Sample data: a clock, a queue that names its jobs [job-A], [job-B], ...,
    an empty world and records of each kind. *)
Module Sample.
Definition names (n : nat) : string :=
  String.append "job-" (String (Ascii.ascii_of_nat (65 + n)) EmptyString).

(** A clock that stands still at [t]. *)
Definition frozen_at (t : Z) : Environment :=
  mkEnv (fun _ => t) names (fun _ now => Some (now + 1)).

(** A clock that reads [t] twice and one microsecond more from then on. *)
Definition ticking_after_two (t : Z) : Environment :=
  mkEnv (fun n => if (n <? 2)%nat then t else t + 1) names
        (fun _ now => Some (now + 1)).

Definition empty_world : World :=
  mkWorld 0 0 (fun _ => mkRQueue [] []) [] (fun _ => 1) [].

Definition fields (on : bool) (ttl : option Z) : BaseFields :=
  mkBase None "nightly" "app.tasks.run" on "default" None None None ttl.

(** An interval record of one minute. *)
Definition every_minute (on : bool) (t : Z) (r : option Z) (ttl : option Z) : job :=
  mkJob (fields on ttl) (RepeatableJobFields (Some t) r 1 minutes).

Definition once (on : bool) (t : option Z) : job :=
  mkJob (fields on None) (ScheduledJobFields t).


(** An interval record with a chosen interval. *)
Definition every (i : Z) (u : UNITS) (t : option Z) (r : option Z) : job :=
  mkJob (fields true None) (RepeatableJobFields t r i u).

Definition cron (on : bool) (c : string) : job :=
  mkJob (fields on None) (CronJobFields None c).

(** The world after a one-off record for the instant [2000] was saved, and
    so scheduled as [job-A], at the instant [1000]. *)
Definition one_off_saved : World :=
  world (@run (frozen_at 1000) (op_save true)
           (mkState (once true (Some 2000)) empty_world)).

(** The same for an interval record with interval [i] seconds, unbounded,
    first due at [2000]. *)
Definition interval_saved (i : Z) : World :=
  world (@run (frozen_at 1000) (op_save true)
           (mkState (every i seconds (Some 2000) None) empty_world)).
End Sample.

(** ** Properties *)

Ltac run_m :=
  unfold bind, ret, raise, gets, modify_self, modify_world, timezone_now.

Lemma eqb_refl_str (s : string) : String.eqb s s = true.
Proof. apply String.eqb_refl. Qed.

Lemma is_scheduled_no_id (j : job) (w : World) :
  job_id (base j) = None -> is_scheduled j w = false.
Proof.
  intros Hid. unfold is_scheduled, BaseJob.is_scheduled. rewrite Hid. reflexivity.
Qed.

(** [is_scheduled] reads the record's id and queue name and the queues. *)
Lemma is_scheduled_ext (j j' : job) (w w' : World) :
  job_id (base j') = job_id (base j) ->
  queue (base j') = queue (base j) ->
  queues w' = queues w ->
  is_scheduled j' w' = is_scheduled j w.
Proof.
  intros Hid Hq Hw. unfold is_scheduled, BaseJob.is_scheduled, get_job_ids.
  rewrite Hid, Hq, Hw. reflexivity.
Qed.

Lemma unschedule_result (st : state) :
  exists w', unschedule st = (Return true, mkState (set_job_id None (self st)) w')
             /\ (is_scheduled (self st) (world st) = false -> w' = world st).
Proof.
  unfold unschedule, BaseJob.unschedule. run_m. cbn.
  destruct (BaseJob.is_scheduled (self st) (world st)) eqn:Hs.
  - destruct (job_id (base (self st))); cbn; eexists; split; try reflexivity;
      intros Hf; unfold is_scheduled in Hf; congruence.
  - cbn. eexists; split; [reflexivity | reflexivity].
Qed.


Lemma job_type_scheduled (j : job) (t : option Z) :
  kind j = ScheduledJobFields t -> job_type j = TScheduledJob.
Proof. intros Hk. unfold job_type. rewrite Hk. reflexivity. Qed.


Lemma base_ready_true (j : job) (w : World) :
  enabled (base j) = true -> is_scheduled j w = false ->
  BaseJob.ready_for_schedule j w = true.
Proof.
  unfold is_scheduled, BaseJob.ready_for_schedule. intros He Hs.
  rewrite Hs, He. reflexivity.
Qed.

(** A fixed-instant record: the check reads the clock once, and only when
    the shared checks passed and an instant is set. *)
Lemma scheduled_ready_eq `{Environment} (st : state) (t : option Z) :
  kind (self st) = ScheduledJobFields t ->
  ready_for_schedule st =
  if BaseJob.ready_for_schedule (self st) (world st)
  then match t with
       | None => (Return true, st)
       | Some T => (Return (negb (T <? reading (world st) 0)),
                    mkState (self st) (advance_clock 1 (world st)))
       end
  else (Return false, st).
Proof.
  intros Hk. unfold ready_for_schedule.
  rewrite (job_type_scheduled _ _ Hk).
  unfold ScheduledJob.ready_for_schedule. run_m. cbn.
  destruct (BaseJob.ready_for_schedule (self st) (world st)); cbn; [| reflexivity].
  unfold scheduled_time_of. rewrite Hk.
  destruct t as [T |]; [| reflexivity].
  unfold reading. cbn. destruct (T <? now_at (ticks (world st))); reflexivity.
Qed.

(** C10: a fixed-instant record with no [scheduled_time] skips the temporal
    check: when it is enabled and not already scheduled,
    [ready_for_schedule] returns true, without reading the clock and
    without changing the record. *)
Theorem scheduled_job_without_time_is_ready `{Environment} (st : state) :
  kind (self st) = ScheduledJobFields None ->
  enabled (base (self st)) = true ->
  is_scheduled (self st) (world st) = false ->
  ready_for_schedule st = (Return true, st).
Proof.
  intros Hk He Hs. rewrite (scheduled_ready_eq st None Hk).
  rewrite (base_ready_true _ _ He Hs). reflexivity.
Qed.

Lemma scheduled_job_without_time_is_ready_witness :
  kind (Sample.once true None) = ScheduledJobFields None
  /\ enabled (base (Sample.once true None)) = true
  /\ is_scheduled (Sample.once true None) Sample.empty_world = false
  /\ @ready_for_schedule (Sample.frozen_at 1000)
       (mkState (Sample.once true None) Sample.empty_world)
     = (Return true, mkState (Sample.once true None) Sample.empty_world).
Proof.
  refine (conj eq_refl (conj eq_refl (conj eq_refl _))).
  exact (@scheduled_job_without_time_is_ready (Sample.frozen_at 1000)
           (mkState (Sample.once true None) Sample.empty_world)
           eq_refl eq_refl eq_refl).
Defined.

(** A record that is not eligible: [schedule()] stops at the check. *)
Lemma schedule_not_ready `{Environment} (st st1 : state) :
  ready_for_schedule st = (Return false, st1) ->
  schedule st = (Return false, st1).
Proof.
  intros Hr. unfold schedule, bind at 1. rewrite Hr. reflexivity.
Qed.

(** An eligible record with a fire instant: one job is created, its id is
    stored on the record and entered in the registry of the record's
    queue. *)
Lemma schedule_ready `{Environment} (st st1 : state) (T : Z) :
  ready_for_schedule st = (Return true, st1) ->
  _schedule_time st1 = (Return (Some T), st1) ->
  exists w2,
    schedule st =
      (Return true,
       mkState (set_job_id (Some (uuid4 (created (world st1)))) (self st1)) w2)
    /\ queues w2 (queue (base (self st1))) =
         mkRQueue (uuid4 (created (world st1))
                     :: scheduled_job_registry
                          (queues (world st1) (queue (base (self st1)))))
                  (pending (queues (world st1) (queue (base (self st1)))))
    /\ log w2 =
         (log (world st1)
            ++ [EnqueueAt (queue (base (self st1))) T
                          (job_type (self st1), id (base (self st1)))
                          (enqueue_args (self st1))
                          (uuid4 (created (world st1)))])%list.
Proof.
  intros Hr Ht. unfold schedule, bind at 1. rewrite Hr. cbn [negb].
  unfold bind at 1. rewrite Ht.
  run_m. unfold enqueue_at. cbn.
  eexists. split; [reflexivity |]. cbn.
  rewrite eqb_refl_str. split; reflexivity.
Qed.

Lemma schedule_time_of_mixin `{Environment} (st : state) :
  job_type (self st) <> TCronJob ->
  _schedule_time st = (Return (scheduled_time_of (self st)), st).
Proof.
  intros Hk. unfold _schedule_time.
  destruct (job_type (self st)); try reflexivity. congruence.
Qed.

(** C5: an enabled fixed-instant record that is not already scheduled and
    whose [scheduled_time] is not before the present instant is scheduled
    ([schedule()] returns true and [is_scheduled()] holds afterwards);
    a fixed-instant record whose [scheduled_time] is before the present
    instant is blocked by the check and [schedule()] returns false. *)
Theorem schedule_fixed_instant `{Environment} (st : state) (T : Z) :
  kind (self st) = ScheduledJobFields (Some T) ->
  (ids_nonempty ->
   enabled (base (self st)) = true ->
   is_scheduled (self st) (world st) = false ->
   reading (world st) 0 <= T ->
   exists st', schedule st = (Return true, st')
               /\ is_scheduled (self st') (world st') = true)
  /\ (T < reading (world st) 0 ->
      exists st', ready_for_schedule st = (Return false, st')
                  /\ schedule st = (Return false, st')).
Proof.
  intros Hk. pose proof (scheduled_ready_eq st (Some T) Hk) as Hr.
  cbn beta iota in Hr. split.
  - intros Hids He Hs Hle.
    rewrite (base_ready_true _ _ He Hs) in Hr.
    assert (Hlt : (T <? reading (world st) 0) = false) by (apply Z.ltb_ge; lia).
    rewrite Hlt in Hr. cbn [negb] in Hr.
    destruct (schedule_ready _ _ T Hr) as (w2 & Hsch & Hq & _).
    { rewrite schedule_time_of_mixin.
      - unfold scheduled_time_of. cbn. rewrite Hk. reflexivity.
      - cbn. rewrite (job_type_scheduled _ _ Hk). discriminate. }
    eexists. split; [exact Hsch |].
    cbn [self world] in *.
    unfold is_scheduled, BaseJob.is_scheduled, get_job_ids. cbn.
    rewrite Hq. cbn. rewrite eqb_refl_str. cbn.
    destruct (String.eqb_spec (uuid4 (created (world st))) "") as [E | _];
      [| reflexivity].
    exfalso. exact (Hids _ E).
  - intros Hlt.
    assert (Hb : (T <? reading (world st) 0) = true) by (apply Z.ltb_lt; lia).
    rewrite Hb in Hr. cbn [negb] in Hr.
    destruct (BaseJob.ready_for_schedule (self st) (world st));
      eexists; (split; [exact Hr | exact (schedule_not_ready _ _ Hr)]).
Qed.

Lemma sample_ids_nonempty (t : Z) : @ids_nonempty (Sample.frozen_at t).
Proof. intros n. cbn. unfold Sample.names. cbn. discriminate. Qed.

Lemma schedule_fixed_instant_witness :
  (@reading (Sample.frozen_at 1000) Sample.empty_world 0 <= 2000
   /\ exists st',
       @schedule (Sample.frozen_at 1000)
         (mkState (Sample.once true (Some 2000)) Sample.empty_world)
       = (Return true, st')
       /\ is_scheduled (self st') (world st') = true)
  /\ (500 < @reading (Sample.frozen_at 1000) Sample.empty_world 0
      /\ exists st',
          @ready_for_schedule (Sample.frozen_at 1000)
            (mkState (Sample.once true (Some 500)) Sample.empty_world)
          = (Return false, st')
          /\ @schedule (Sample.frozen_at 1000)
               (mkState (Sample.once true (Some 500)) Sample.empty_world)
             = (Return false, st')).
Proof.
  split; split.
  - cbn. lia.
  - apply (proj1 (@schedule_fixed_instant (Sample.frozen_at 1000)
                    (mkState (Sample.once true (Some 2000)) Sample.empty_world)
                    2000 eq_refl)).
    + apply sample_ids_nonempty.
    + reflexivity.
    + reflexivity.
    + cbn. lia.
  - cbn. lia.
  - apply (proj2 (@schedule_fixed_instant (Sample.frozen_at 1000)
                    (mkState (Sample.once true (Some 500)) Sample.empty_world)
                    500 eq_refl)).
    cbn. lia.
Defined.

(** The configurations [clean_result_ttl] rejects, read off the source:
    a [result_ttl] that is set, not zero, not -1 and below the interval,
    on a record whose [repeat] is set and not zero. *)
Lemma clean_result_ttl_raises_iff (st : state) :
  fst (RepeatableJob.clean_result_ttl st) = Raise ValueError <->
  exists t r,
    result_ttl (base (self st)) = Some t /\ t <> 0 /\ t <> -1
    /\ t < RepeatableJob.interval_seconds (self st)
    /\ repeat_of (self st) = Some r /\ r <> 0.
Proof.
  unfold RepeatableJob.clean_result_ttl. run_m. cbn.
  destruct (result_ttl (base (self st))) as [t |]; cbn.
  2: { split; [discriminate | intros (t & r & E & _); discriminate]. }
  destruct (repeat_of (self st)) as [r |]; cbn.
  2: { rewrite !andb_false_r. cbn.
       split; [discriminate | intros (t' & r & _ & _ & _ & _ & E & _); discriminate]. }
  destruct (Z.eqb_spec t 0), (Z.eqb_spec t (-1)),
    (Z.ltb_spec t (RepeatableJob.interval_seconds (self st))),
    (Z.eqb_spec r 0); cbn;
    (split;
     [ try discriminate; intros _; exists t, r; repeat split; assumption
     | try reflexivity;
       intros (t' & r' & Et & ? & ? & ? & Er & ?);
       injection Et as <-; injection Er as <-; (contradiction || lia) ]).
Qed.

(** C8: an interval record of one minute with five repeats left and
    [result_ttl = 0] passes [clean_result_ttl], although its result TTL is
    finite, is not the indefinite marker -1 and is shorter than the
    interval. *)
Theorem clean_result_ttl_accepts_zero :
  let self := Sample.every_minute true 0 (Some 5) (Some 0) in
  result_ttl (base self) = Some 0
  /\ 0 <> -1
  /\ 0 < RepeatableJob.interval_seconds self
  /\ repeat_of self = Some 5
  /\ RepeatableJob.clean_result_ttl (mkState self Sample.empty_world)
     = (Return tt, mkState self Sample.empty_world).
Proof.
  cbn. repeat split; try reflexivity; lia.
Qed.

(** *** The catch-up of an interval record *)

Lemma ceil_div_bounds (n d : Z) :
  0 < d -> (ceil_div n d - 1) * d < n <= ceil_div n d * d.
Proof.
  intros Hd. unfold ceil_div.
  pose proof (Z.div_mod (- n) d ltac:(lia)) as Hdm.
  pose proof (Z.mod_pos_bound (- n) d Hd) as Hm.
  nia.
Qed.

Lemma ceil_div_unique (n d k : Z) :
  0 < d -> (k - 1) * d < n <= k * d -> ceil_div n d = k.
Proof.
  intros Hd Hk. pose proof (ceil_div_bounds n d Hd) as Hb. nia.
Qed.

Lemma ceil_div_pos (n d : Z) : 0 < d -> 0 < n -> 1 <= ceil_div n d.
Proof.
  intros Hd Hn. pose proof (ceil_div_bounds n d Hd) as Hb. nia.
Qed.

(** With a negative divisor and a positive dividend the quotient is not
    positive. *)
Lemma ceil_div_neg_divisor (n d : Z) : d < 0 -> 0 < n -> ceil_div n d <= 0.
Proof.
  intros Hd Hn. unfold ceil_div.
  pose proof (Z.div_mod (- n) d ltac:(lia)) as Hdm.
  pose proof (Z.mod_neg_bound (- n) d Hd) as Hm.
  nia.
Qed.

(** The readings and the outcome of [RepeatableJob.ready_for_schedule] on a
    record whose [scheduled_time] is set, path by path. *)
Lemma repeatable_ready_eq `{Environment} (st : state) T r i u :
  kind (self st) = RepeatableJobFields (Some T) r i u ->
  ready_for_schedule st =
  if BaseJob.ready_for_schedule (self st) (world st)
  then
    if T <? reading (world st) 0
    then
      if i * RepeatableJob.unit_seconds u =? 0
      then (Raise ZeroDivisionError,
            mkState (self st) (advance_clock 2 (world st)))
      else
        let gap := ceil_div (reading (world st) 1 - T)
                            (timedelta_seconds (i * RepeatableJob.unit_seconds u)) in
        if match r with
           | None => true
           | Some r => gap <=? r
           end
        then
          let T' := T + timedelta_seconds (i * RepeatableJob.unit_seconds u * gap) in
          (Return (negb (T' <? reading (world st) 2)),
           mkState (set_advance (Some T')
                                (match r with
                                 | Some r => Some (r - gap)
                                 | None => None
                                 end)
                                (self st))
                   (advance_clock 3 (world st)))
        else (Return (negb (T <? reading (world st) 2)),
              mkState (self st) (advance_clock 3 (world st)))
    else (Return (negb (T <? reading (world st) 1)),
          mkState (self st) (advance_clock 2 (world st)))
  else (Return false, st).
Proof.
  destruct st as [[b k] w]. cbn [self kind]. intros ->.
  unfold ready_for_schedule, RepeatableJob.ready_for_schedule,
    RepeatableJob.scheduled_time_lt_now.
  run_m. unfold reading. cbn.
  destruct (BaseJob.ready_for_schedule _ w); cbn; [| reflexivity].
  destruct (T <? now_at (ticks w)); cbn.
  - destruct (i * RepeatableJob.unit_seconds u =? 0); cbn; [reflexivity |].
    destruct r as [r |]; cbn.
    + destruct (_ <=? r); cbn; destruct (_ <? _); reflexivity.
    + destruct (_ <? _); reflexivity.
  - destruct (_ <? _); reflexivity.
Qed.

Lemma interval_seconds_eq (j : job) t r i u :
  kind j = RepeatableJobFields t r i u ->
  RepeatableJob.interval_seconds j = i * RepeatableJob.unit_seconds u.
Proof. intros Hk. unfold RepeatableJob.interval_seconds. rewrite Hk. reflexivity. Qed.

Lemma timedelta_seconds_pos (s : Z) : 0 < s -> 0 < timedelta_seconds s.
Proof. unfold timedelta_seconds. lia. Qed.

Lemma reading_advance `{Environment} (n k : nat) (w : World) :
  reading (advance_clock n w) k = reading w (k + n).
Proof. unfold reading, advance_clock. cbn. f_equal. lia. Qed.

Lemma reading_mono `{Environment} (w : World) (k k' : nat) :
  clock_monotone -> (k <= k')%nat -> reading w k <= reading w k'.
Proof. intros Hm Hk. unfold reading. apply Hm. lia. Qed.




(** C2: on an interval record with an interval of [I > 0] seconds, [R]
    repeats left and a [scheduled_time] [T] before the present instant by
    [k > R] intervals, [ready_for_schedule] returns false, changes no field
    of the record, and [scheduled_time] is still before the present instant
    when the call returns. *)
Theorem exhausted_series_is_blocked `{Environment}
        (st : state) (T R i : Z) (u : UNITS) :
  clock_monotone ->
  kind (self st) = RepeatableJobFields (Some T) (Some R) i u ->
  0 < RepeatableJob.interval_seconds (self st) ->
  T < reading (world st) 0 ->
  R < ceil_div (reading (world st) 1 - T)
               (timedelta_seconds (RepeatableJob.interval_seconds (self st))) ->
  exists st',
    ready_for_schedule st = (Return false, st')
    /\ self st' = self st
    /\ scheduled_time_of (self st') = Some T
    /\ T < reading (world st') 0.
Proof.
  intros Hm Hk HI Hpast Hgap.
  assert (Hst : scheduled_time_of (self st) = Some T)
    by (unfold scheduled_time_of; rewrite Hk; reflexivity).
  rewrite (interval_seconds_eq _ _ _ _ _ Hk) in *.
  rewrite (repeatable_ready_eq st _ _ _ _ Hk).
  destruct (BaseJob.ready_for_schedule (self st) (world st)).
  - replace (T <? reading (world st) 0) with true by (symmetry; apply Z.ltb_lt; lia).
    replace (i * RepeatableJob.unit_seconds u =? 0) with false
      by (symmetry; apply Z.eqb_neq; lia).
    cbn zeta.
    replace (_ <=? R) with false by (symmetry; apply Z.leb_gt; exact Hgap).
    pose proof (reading_mono (world st) 0 2 Hm ltac:(lia)) as H02.
    pose proof (reading_mono (world st) 0 3 Hm ltac:(lia)) as H03.
    replace (T <? reading (world st) 2) with true by (symmetry; apply Z.ltb_lt; lia).
    eexists. split; [reflexivity |]. cbn [self world].
    rewrite reading_advance. cbn [Nat.add]. repeat split; try assumption. lia.
  - exists st. repeat split; assumption.
Qed.

Lemma exhausted_series_is_blocked_witness :
  0 < RepeatableJob.interval_seconds (Sample.every_minute true 0 (Some 2) None)
  /\ 0 < @reading (Sample.frozen_at 125000000) Sample.empty_world 0
  /\ 2 < ceil_div (@reading (Sample.frozen_at 125000000) Sample.empty_world 1 - 0)
                  (timedelta_seconds 60)
  /\ exists st',
      @ready_for_schedule (Sample.frozen_at 125000000)
        (mkState (Sample.every_minute true 0 (Some 2) None) Sample.empty_world)
      = (Return false, st')
      /\ self st' = Sample.every_minute true 0 (Some 2) None
      /\ scheduled_time_of (self st') = Some 0
      /\ 0 < @reading (Sample.frozen_at 125000000) (world st') 0.
Proof.
  split; [reflexivity |]. split; [reflexivity |]. split; [reflexivity |].
  refine (@exhausted_series_is_blocked (Sample.frozen_at 125000000)
            (mkState (Sample.every_minute true 0 (Some 2) None) Sample.empty_world)
            0 2 1 minutes _ eq_refl eq_refl eq_refl eq_refl).
  intros n m _. cbn. lia.
Defined.

(** *** A blocked [schedule()] *)

Lemma advance_clock_0 (w : World) : advance_clock 0 w = w.
Proof. destruct w; reflexivity. Qed.

Lemma set_advance_same (j : job) :
  set_advance (scheduled_time_of j) (repeat_of j) j = j.
Proof. destruct j as [b [t | t r i u | r c]]; reflexivity. Qed.

Lemma base_set_advance (t r : option Z) (j : job) :
  base (set_advance t r j) = base j.
Proof. destruct j as [b [t0 | t0 r0 i u | r0 c]]; reflexivity. Qed.

Lemma repeatable_ready_no_time `{Environment} (st : state) r i u :
  kind (self st) = RepeatableJobFields None r i u ->
  ready_for_schedule st =
  if BaseJob.ready_for_schedule (self st) (world st)
  then (Raise TypeError, mkState (self st) (advance_clock 1 (world st)))
  else (Return false, st).
Proof.
  destruct st as [[b k] w]. cbn [self kind]. intros ->.
  unfold ready_for_schedule, RepeatableJob.ready_for_schedule,
    RepeatableJob.scheduled_time_lt_now.
  run_m. cbn.
  destruct (BaseJob.ready_for_schedule _ w); reflexivity.
Qed.

Lemma cron_ready_eq `{Environment} (st : state) r c :
  kind (self st) = CronJobFields r c ->
  ready_for_schedule st =
  (Return (BaseJob.ready_for_schedule (self st) (world st)), st).
Proof.
  intros Hk. unfold ready_for_schedule, job_type. rewrite Hk. reflexivity.
Qed.

(** What the check can change, whatever it answers: the clock has been
    read some more, and on an interval record [scheduled_time] and [repeat]
    may have been reassigned. *)
Lemma ready_for_schedule_frame `{Environment} (st : state) :
  (exists n, world (snd (ready_for_schedule st)) = advance_clock n (world st))
  /\ (exists t r, self (snd (ready_for_schedule st)) = set_advance t r (self st)).
Proof.
  destruct (kind (self st)) as [t | t r i u | r c] eqn:Hk.
  - rewrite (scheduled_ready_eq st t Hk).
    destruct (BaseJob.ready_for_schedule _ _); [destruct t |]; cbn [snd self world].
    + split; [exists 1%nat; reflexivity |].
      eexists _, _. symmetry. apply set_advance_same.
    + split; [exists 0%nat; symmetry; apply advance_clock_0 |].
      eexists _, _. symmetry. apply set_advance_same.
    + split; [exists 0%nat; symmetry; apply advance_clock_0 |].
      eexists _, _. symmetry. apply set_advance_same.
  - destruct t as [T |].
    + rewrite (repeatable_ready_eq st _ _ _ _ Hk).
      repeat match goal with
             | |- context [if ?c then _ else _] => destruct c
             end; cbn zeta;
        repeat match goal with
               | |- context [if ?c then _ else _] => destruct c
               end; cbn [snd self world];
        (split;
         [ first [ exists 0%nat; symmetry; apply advance_clock_0
                 | exists 2%nat; reflexivity
                 | exists 3%nat; reflexivity ]
         | first [ eexists _, _; reflexivity
                 | eexists _, _; symmetry; apply set_advance_same ] ]).
    + rewrite (repeatable_ready_no_time st _ _ _ Hk).
      destruct (BaseJob.ready_for_schedule _ _); cbn [snd self world].
      * split; [exists 1%nat; reflexivity |].
        eexists _, _. symmetry. apply set_advance_same.
      * split; [exists 0%nat; symmetry; apply advance_clock_0 |].
        eexists _, _. symmetry. apply set_advance_same.
  - rewrite (cron_ready_eq st _ _ Hk). cbn [snd self world].
    split; [exists 0%nat; symmetry; apply advance_clock_0 |].
    eexists _, _. symmetry. apply set_advance_same.
Qed.

Ltac same_self Hr :=
  apply (f_equal (fun p => self (snd p))) in Hr; cbn [snd self] in Hr;
  symmetry; exact Hr.

(** On an interval record whose interval is not negative, a check that
    reassigned [scheduled_time] answers false only if the clock moved on
    between its last two readings. *)
Lemma blocked_unchanged_when_clock_stands `{Environment} (st st1 : state) :
  ready_for_schedule st = (Return false, st1) ->
  0 <= RepeatableJob.interval_seconds (self st) ->
  reading (world st) 2 <= reading (world st) 1 ->
  self st1 = self st.
Proof.
  intros Hr HI Hclock.
  destruct (kind (self st)) as [t | t r i u | r c] eqn:Hk.
  - rewrite (scheduled_ready_eq st t Hk) in Hr.
    destruct (BaseJob.ready_for_schedule _ _); [destruct t |];
      same_self Hr.
  - rewrite (interval_seconds_eq _ _ _ _ _ Hk) in HI.
    destruct t as [T |].
    + rewrite (repeatable_ready_eq st _ _ _ _ Hk) in Hr.
      destruct (BaseJob.ready_for_schedule _ _); [| same_self Hr].
      destruct (T <? reading (world st) 0) eqn:Hpast;
        [| same_self Hr].
      destruct (Z.eqb_spec (i * RepeatableJob.unit_seconds u) 0) as [| Hnz];
        [discriminate |].
      cbn zeta in Hr.
      destruct (match r with
                | Some r0 => _ <=? r0
                | None => true
                end); [| same_self Hr].
      exfalso.
      apply (f_equal fst) in Hr. cbn [fst] in Hr. injection Hr as Hlt.
      apply negb_false_iff, Z.ltb_lt in Hlt.
      assert (Hpos : 0 < i * RepeatableJob.unit_seconds u) by lia.
      pose proof (ceil_div_bounds (reading (world st) 1 - T) _
                    (timedelta_seconds_pos _ Hpos)) as Hb.
      unfold timedelta_seconds in *. nia.
    + rewrite (repeatable_ready_no_time st _ _ _ Hk) in Hr.
      destruct (BaseJob.ready_for_schedule _ _); [discriminate |].
      same_self Hr.
  - rewrite (cron_ready_eq st _ _ Hk) in Hr. same_self Hr.
Qed.

(** X1: when the eligibility check fails, [schedule()] returns false, makes
    no call to the queue or to storage (the world differs only by the
    readings of the clock), and leaves every field of the record other than
    [scheduled_time] and [repeat] unchanged, [job_id] included;
    [scheduled_time] and [repeat] are unchanged as well on a fixed-instant
    or cron record, and on an interval record (interval not negative)
    whenever the clock does not move between the last two readings of the
    check. *)
Theorem blocked_schedule_frame `{Environment} (st st1 : state) :
  ready_for_schedule st = (Return false, st1) ->
  schedule st = (Return false, st1)
  /\ (exists n, world st1 = advance_clock n (world st))
  /\ base (self st1) = base (self st)
  /\ (exists t r, self st1 = set_advance t r (self st))
  /\ (job_type (self st) <> TRepeatableJob -> self st1 = self st)
  /\ (0 <= RepeatableJob.interval_seconds (self st) ->
      reading (world st) 2 <= reading (world st) 1 ->
      self st1 = self st).
Proof.
  intros Hr.
  destruct (ready_for_schedule_frame st) as (Hw & (t & r & Hs)).
  rewrite Hr in Hw, Hs. cbn [snd] in Hw, Hs.
  split; [exact (schedule_not_ready _ _ Hr) |].
  split; [exact Hw |].
  split; [rewrite Hs; apply base_set_advance |].
  split; [exists t, r; exact Hs |].
  split.
  - intros Hnot. rewrite Hs. unfold set_advance, job_type in *.
    destruct (kind (self st)); congruence.
  - intros HI Hclock. exact (blocked_unchanged_when_clock_stands _ _ Hr HI Hclock).
Qed.

Lemma blocked_schedule_frame_witness :
  @ready_for_schedule (Sample.frozen_at 125000000)
    (mkState (Sample.every_minute true 0 (Some 2) None) Sample.empty_world)
  = (Return false,
     mkState (Sample.every_minute true 0 (Some 2) None)
             (advance_clock 3 Sample.empty_world))
  /\ @schedule (Sample.frozen_at 125000000)
       (mkState (Sample.every_minute true 0 (Some 2) None) Sample.empty_world)
     = (Return false,
        mkState (Sample.every_minute true 0 (Some 2) None)
                (advance_clock 3 Sample.empty_world)).
Proof.
  split; [reflexivity |].
  exact (proj1 (@blocked_schedule_frame (Sample.frozen_at 125000000)
                  (mkState (Sample.every_minute true 0 (Some 2) None)
                           Sample.empty_world)
                  _ eq_refl)).
Defined.

(** C6: a failed eligibility check can leave the record changed.  A
    one-minute interval record, five repeats left, is due exactly one
    interval before the instant the clock gives when the gap is computed.
    The check advances it by one interval ([gap = 1]), reads the clock once
    more and finds the record one microsecond late: [ready_for_schedule]
    answers false, [schedule()] returns false and enqueues nothing, and the
    record keeps the new [scheduled_time] and [repeat]. *)
Theorem blocked_schedule_changes_record :
  @ready_for_schedule (Sample.ticking_after_two 60000000)
    (mkState (Sample.every_minute true 0 (Some 5) None) Sample.empty_world)
  = (Return false,
     mkState (Sample.every_minute true 60000000 (Some 4) None)
             (advance_clock 3 Sample.empty_world))
  /\ @schedule (Sample.ticking_after_two 60000000)
       (mkState (Sample.every_minute true 0 (Some 5) None) Sample.empty_world)
     = (Return false,
        mkState (Sample.every_minute true 60000000 (Some 4) None)
                (advance_clock 3 Sample.empty_world))
  /\ Sample.every_minute true 60000000 (Some 4) None
     <> Sample.every_minute true 0 (Some 5) None.
Proof.
  split; [reflexivity |]. split; [reflexivity |]. discriminate.
Qed.

(** *** Properties kept by the operations *)

Lemma preserves_bind {A B} (P : state -> Prop) (m : M A) (k : A -> M B) :
  preserves P m -> (forall a, preserves P (k a)) -> preserves P (bind m k).
Proof.
  intros Hm Hk st HP. unfold bind.
  specialize (Hm st HP). destruct (m st) as [[a | e] st']; cbn [snd] in *.
  - apply Hk, Hm.
  - exact Hm.
Qed.

Lemma preserves_ret {A} (P : state -> Prop) (a : A) : preserves P (ret a).
Proof. intros st HP. exact HP. Qed.

Section Composite.
Context `{Environment}.
Variable P : state -> Prop.
Hypothesis ready_keeps : preserves P ready_for_schedule.
Hypothesis schedule_keeps : preserves P schedule.
Hypothesis unschedule_keeps : preserves P unschedule.
Hypothesis model_save_keeps : preserves P model_save.
Hypothesis model_delete_keeps : preserves P model_delete.

Lemma save_keeps (b : bool) : preserves P (save b).
Proof.
  unfold save. apply preserves_bind; [exact model_save_keeps |].
  intros _. destruct b; [| apply preserves_ret].
  apply preserves_bind; [exact schedule_keeps |].
  intros _. exact model_save_keeps.
Qed.

Lemma delete_keeps : preserves P delete.
Proof.
  unfold delete. apply preserves_bind; [exact unschedule_keeps |].
  intros _. exact model_delete_keeps.
Qed.

Lemma reschedule_keeps : preserves P reschedule.
Proof.
  unfold reschedule. apply preserves_bind; [exact unschedule_keeps |].
  intros _. apply preserves_bind; [exact schedule_keeps |].
  intros _. apply save_keeps.
Qed.

Lemma run_keeps (o : operation) (st : state) : P st -> P (run o st).
Proof.
  destruct o; cbn [run].
  - apply ready_keeps.
  - apply schedule_keeps.
  - apply unschedule_keeps.
  - apply save_keeps.
  - apply delete_keeps.
  - apply reschedule_keeps.
Qed.
End Composite.

(** What the steps of [schedule()] after the check, [unschedule()] and the
    storage calls leave alone: the kind-specific fields and [enabled]. *)
Lemma unschedule_self (st : state) :
  self (snd (unschedule st)) = set_job_id None (self st).
Proof.
  destruct (unschedule_result st) as (w' & E & _). rewrite E. reflexivity.
Qed.

Lemma model_save_self (st : state) :
  exists pk, self (snd (model_save st)) = set_id pk (self st).
Proof.
  unfold model_save. destruct (id (base (self st))) eqn:Hid; cbn.
  - exists (id (base (self st))). destruct (self st) as [[] ?]; reflexivity.
  - eexists. reflexivity.
Qed.

Lemma model_save_queues (st : state) :
  queues (world (snd (model_save st))) = queues (world st).
Proof. unfold model_save. destruct (id (base (self st))); reflexivity. Qed.

Lemma model_delete_self (st : state) :
  exists pk, self (snd (model_delete st)) = set_id pk (self st).
Proof.
  unfold model_delete. destruct (id (base (self st))) eqn:Hid; cbn.
  - eexists. reflexivity.
  - exists None. rewrite <- Hid. destruct (self st) as [[] ?]; reflexivity.
Qed.

Lemma model_delete_queues (st : state) :
  queues (world (snd (model_delete st))) = queues (world st).
Proof. unfold model_delete. destruct (id (base (self st))); reflexivity. Qed.

Lemma schedule_time_self `{Environment} (st : state) :
  self (snd (_schedule_time st)) = self st.
Proof.
  unfold _schedule_time.
  destruct (job_type (self st)); try reflexivity.
  unfold CronJob._schedule_time. run_m. cbn.
  destruct (kind (self st)); try reflexivity.
  cbn. destruct (get_next_cron_time _ _); reflexivity.
Qed.

(** After the check, [schedule()] either stops or stores a new [job_id]. *)
Lemma schedule_self `{Environment} (st : state) :
  self (snd (schedule st)) = self (snd (ready_for_schedule st))
  \/ exists jid,
      self (snd (schedule st))
      = set_job_id (Some jid) (self (snd (ready_for_schedule st))).
Proof.
  unfold schedule. run_m.
  destruct (ready_for_schedule st) as [[[] | e] st1]; cbn [snd negb];
    [| left; reflexivity | left; reflexivity].
  pose proof (schedule_time_self st1) as Hs.
  destruct (_schedule_time st1) as [[[t |] | e] st2]; cbn [snd] in Hs.
  - right. unfold enqueue_at. cbn. rewrite Hs. eexists. reflexivity.
  - left. unfold enqueue_at. cbn. exact Hs.
  - left. exact Hs.
Qed.

(** *** [scheduled_time] of an interval record only moves forward *)

Lemma unit_seconds_pos (u : UNITS) : 0 < RepeatableJob.unit_seconds u.
Proof. destruct u; reflexivity. Qed.

(** One check on an interval record: [scheduled_time] and [repeat] stay, or
    [scheduled_time] moves by [gap] intervals, not backwards; [gap >= 1]
    when the interval is not negative. *)
Lemma ready_moves_forward `{Environment} (st : state) T r i u :
  clock_monotone ->
  kind (self st) = RepeatableJobFields (Some T) r i u ->
  exists T' r',
    kind (self (snd (ready_for_schedule st))) = RepeatableJobFields (Some T') r' i u
    /\ T <= T'
    /\ ((T' = T /\ r' = r)
        \/ exists gap,
            T' = T + gap * timedelta_seconds (RepeatableJob.interval_seconds (self st))
            /\ (0 <= i -> 1 <= gap)).
Proof.
  intros Hm Hk.
  assert (Hsame : exists T' r',
             kind (self st) = RepeatableJobFields (Some T') r' i u
             /\ T <= T'
             /\ ((T' = T /\ r' = r)
                 \/ exists gap,
                     T' = T + gap * timedelta_seconds
                                      (RepeatableJob.interval_seconds (self st))
                     /\ (0 <= i -> 1 <= gap))).
  { exists T, r. split; [exact Hk |]. split; [lia |]. left. split; reflexivity. }
  rewrite (interval_seconds_eq _ _ _ _ _ Hk) in *.
  rewrite (repeatable_ready_eq st _ _ _ _ Hk).
  destruct (BaseJob.ready_for_schedule _ _); [| exact Hsame].
  destruct (Z.ltb_spec T (reading (world st) 0)) as [Hpast |]; [| exact Hsame].
  destruct (Z.eqb_spec (i * RepeatableJob.unit_seconds u) 0) as [| Hnz];
    [exact Hsame |].
  cbn zeta.
  destruct (match r with
            | Some r0 => _ <=? r0
            | None => true
            end); [| exact Hsame].
  clear Hsame.
  cbn [snd self]. unfold set_advance. rewrite Hk. cbn [kind].
  pose proof (unit_seconds_pos u) as Hu.
  pose proof (reading_mono (world st) 0 1 Hm ltac:(lia)) as H01.
  set (I := i * RepeatableJob.unit_seconds u) in *.
  set (gap := ceil_div (reading (world st) 1 - T) (timedelta_seconds I)).
  assert (Hgap : (0 < I /\ 1 <= gap) \/ (I < 0 /\ gap <= 0)).
  { destruct (Z.lt_trichotomy I 0) as [Hneg | [Hz | Hpos]]; [| contradiction |].
    - right. split; [exact Hneg |].
      apply ceil_div_neg_divisor; [unfold timedelta_seconds; lia | lia].
    - left. split; [exact Hpos |].
      apply ceil_div_pos; [apply timedelta_seconds_pos; exact Hpos | lia]. }
  eexists _, _. split; [reflexivity |]. split.
  - unfold timedelta_seconds. nia.
  - right. exists gap. split; [unfold timedelta_seconds; ring |].
    intros Hi. subst I. nia.
Qed.

Lemma due_not_before_kind (T i : Z) (u : UNITS) (st st' : state) :
  kind (self st') = kind (self st) ->
  due_not_before T i u st -> due_not_before T i u st'.
Proof. intros Hk (T' & r' & E & Hle). exists T', r'. rewrite Hk. auto. Qed.

Lemma ready_keeps_due `{Environment} (T i : Z) (u : UNITS) :
  clock_monotone ->
  preserves (due_not_before T i u) ready_for_schedule.
Proof.
  intros Hm st (T0 & r0 & Hk & Hle).
  destruct (ready_moves_forward st T0 r0 i u Hm Hk) as (T' & r' & Hk' & Hle' & _).
  exists T', r'. split; [exact Hk' | lia].
Qed.

Lemma schedule_keeps_due `{Environment} (T i : Z) (u : UNITS) :
  clock_monotone ->
  preserves (due_not_before T i u) schedule.
Proof.
  intros Hm st HP.
  pose proof (ready_keeps_due T i u Hm st HP) as HP1.
  destruct (schedule_self st) as [E | (jid & E)];
    (eapply due_not_before_kind; [| exact HP1]); rewrite E; reflexivity.
Qed.

(** C9: [scheduled_time] of an interval record never moves backwards.
    With a clock that does not run backwards, every operation
    ([ready_for_schedule], [schedule], [unschedule], [save], [delete], and
    the rescheduling done by the callback) leaves [scheduled_time] at or
    after its former value, and [ready_for_schedule] either leaves it (and
    [repeat]) unchanged or advances it by [gap * interval_seconds], with
    [gap >= 1] on every record whose interval is not negative. *)
Theorem scheduled_time_never_decreases `{Environment}
        (o : operation) (st : state) (T : Z) (r : option Z) (i : Z) (u : UNITS) :
  clock_monotone ->
  kind (self st) = RepeatableJobFields (Some T) r i u ->
  (exists T' r',
      kind (self (run o st)) = RepeatableJobFields (Some T') r' i u /\ T <= T')
  /\ (exists T' r',
         kind (self (snd (ready_for_schedule st)))
         = RepeatableJobFields (Some T') r' i u
         /\ T <= T'
         /\ ((T' = T /\ r' = r)
             \/ exists gap,
                 T' = T + gap * timedelta_seconds
                                  (RepeatableJob.interval_seconds (self st))
                 /\ (0 <= i -> 1 <= gap))).
Proof.
  intros Hm Hk. split; [| exact (ready_moves_forward st T r i u Hm Hk)].
  apply (run_keeps (due_not_before T i u)).
  - apply ready_keeps_due; assumption.
  - apply schedule_keeps_due; assumption.
  - intros s. apply due_not_before_kind. rewrite unschedule_self. reflexivity.
  - intros s. apply due_not_before_kind.
    destruct (model_save_self s) as (pk & ->). reflexivity.
  - intros s. apply due_not_before_kind.
    destruct (model_delete_self s) as (pk & ->). reflexivity.
  - exists T, r. split; [exact Hk | lia].
Qed.

Lemma sample_clock_monotone (t : Z) : @clock_monotone (Sample.frozen_at t).
Proof. intros n m _. cbn. lia. Qed.

Lemma scheduled_time_never_decreases_witness :
  @clock_monotone (Sample.frozen_at 125000000)
  /\ (exists T' r',
         kind (self (@run (Sample.frozen_at 125000000) op_reschedule
                       (mkState (Sample.every_minute true 0 (Some 3) None)
                                Sample.empty_world)))
         = RepeatableJobFields (Some T') r' 1 minutes
         /\ 0 <= T')
  /\ (exists T' r',
         kind (self (snd (@ready_for_schedule (Sample.frozen_at 125000000)
                            (mkState (Sample.every_minute true 0 (Some 3) None)
                                     Sample.empty_world))))
         = RepeatableJobFields (Some T') r' 1 minutes
         /\ 0 <= T'
         /\ ((T' = 0 /\ r' = Some 3)
             \/ exists gap,
                 T' = 0 + gap * timedelta_seconds
                                  (RepeatableJob.interval_seconds
                                     (Sample.every_minute true 0 (Some 3) None))
                 /\ (0 <= 1 -> 1 <= gap))).
Proof.
  split; [apply sample_clock_monotone |].
  exact (@scheduled_time_never_decreases (Sample.frozen_at 125000000)
           op_reschedule
           (mkState (Sample.every_minute true 0 (Some 3) None) Sample.empty_world)
           0 (Some 3) 1 minutes (sample_clock_monotone _) eq_refl).
Defined.

(** *** Disabled records and the registry *)

(** Every check starts with the shared ones: a record they block is
    answered false at once, with nothing read and nothing changed. *)
Lemma ready_blocked_by_base `{Environment} (st : state) :
  BaseJob.ready_for_schedule (self st) (world st) = false ->
  ready_for_schedule st = (Return false, st).
Proof.
  intros Hb. unfold ready_for_schedule.
  destruct (job_type (self st)).
  - unfold ScheduledJob.ready_for_schedule. run_m. cbn. rewrite Hb. reflexivity.
  - unfold RepeatableJob.ready_for_schedule. run_m. cbn. rewrite Hb. reflexivity.
  - unfold gets. rewrite Hb. reflexivity.
Qed.

Lemma base_ready_disabled (j : job) (w : World) :
  enabled (base j) = false -> BaseJob.ready_for_schedule j w = false.
Proof.
  intros He. unfold BaseJob.ready_for_schedule. rewrite He.
  destruct (BaseJob.is_scheduled j w); reflexivity.
Qed.

Lemma disabled_idle_after_unschedule (st : state) :
  enabled (base (self st)) = false -> disabled_idle (snd (unschedule st)).
Proof.
  intros He. unfold disabled_idle. rewrite unschedule_self. split.
  - destruct (self st) as [[] ?]; exact He.
  - apply is_scheduled_no_id. reflexivity.
Qed.

Lemma disabled_idle_set_id (st st' : state) (pk : option Z) :
  self st' = set_id pk (self st) ->
  queues (world st') = queues (world st) ->
  disabled_idle st -> disabled_idle st'.
Proof.
  intros Hs Hq [He Hi]. unfold disabled_idle. rewrite Hs. split.
  - exact He.
  - rewrite <- Hi. apply is_scheduled_ext; [reflexivity | reflexivity | exact Hq].
Qed.

Lemma ready_keeps_disabled_idle `{Environment} :
  preserves disabled_idle ready_for_schedule.
Proof.
  intros st [He Hi].
  rewrite (ready_blocked_by_base st (base_ready_disabled _ _ He)).
  split; assumption.
Qed.

Lemma schedule_keeps_disabled_idle `{Environment} :
  preserves disabled_idle schedule.
Proof.
  intros st [He Hi].
  rewrite (schedule_not_ready st st
             (ready_blocked_by_base st (base_ready_disabled _ _ He))).
  split; assumption.
Qed.

Lemma model_save_keeps_disabled_idle : preserves disabled_idle model_save.
Proof.
  intros st. destruct (model_save_self st) as (pk & Hs).
  exact (disabled_idle_set_id _ _ pk Hs (model_save_queues st)).
Qed.

Lemma model_delete_keeps_disabled_idle : preserves disabled_idle model_delete.
Proof.
  intros st. destruct (model_delete_self st) as (pk & Hs).
  exact (disabled_idle_set_id _ _ pk Hs (model_delete_queues st)).
Qed.

Lemma unschedule_keeps_disabled_idle : preserves disabled_idle unschedule.
Proof. intros st [He _]. apply disabled_idle_after_unschedule, He. Qed.

Lemma snd_bind_unschedule {B} (k : bool -> M B) (st : state) :
  snd ((unschedule ;;; k true) st) = snd (k true (snd (unschedule st))).
Proof.
  unfold bind. destruct (unschedule_result st) as (w' & E & _).
  rewrite E. reflexivity.
Qed.

(** C3, as amended: the operations never give a disabled record a live
    queue entry.  On a record with [enabled = false], each of
    [ready_for_schedule], [schedule], [unschedule], [save], [delete] and
    the rescheduling of the callback leaves the record disabled, and leaves
    it absent from the registry if it was absent before; [unschedule],
    [delete] and the rescheduling of the callback leave it absent from the
    registry in every case. *)
Theorem disabled_record_not_scheduled `{Environment} (o : operation) (st : state) :
  enabled (base (self st)) = false ->
  (is_scheduled (self st) (world st) = false ->
   enabled (base (self (run o st))) = false
   /\ is_scheduled (self (run o st)) (world (run o st)) = false)
  /\ (o = op_unschedule \/ o = op_delete \/ o = op_reschedule ->
      enabled (base (self (run o st))) = false
      /\ is_scheduled (self (run o st)) (world (run o st)) = false).
Proof.
  intros He. split.
  - intros Hi.
    apply (run_keeps disabled_idle
             ready_keeps_disabled_idle schedule_keeps_disabled_idle
             unschedule_keeps_disabled_idle
             model_save_keeps_disabled_idle model_delete_keeps_disabled_idle).
    split; assumption.
  - pose proof (disabled_idle_after_unschedule st He) as Hu.
    intros [-> | [-> | ->]]; cbn [run].
    + exact Hu.
    + unfold delete.
      rewrite (snd_bind_unschedule (fun _ => model_delete)).
      apply model_delete_keeps_disabled_idle, Hu.
    + unfold reschedule.
      rewrite (snd_bind_unschedule (fun _ => schedule ;;; save true)).
      revert Hu. generalize (snd (unschedule st)).
      apply (preserves_bind disabled_idle);
        [exact schedule_keeps_disabled_idle |].
      intros _.
      apply (save_keeps disabled_idle schedule_keeps_disabled_idle
               model_save_keeps_disabled_idle).
Qed.

Lemma disabled_record_not_scheduled_witness :
  enabled (base (Sample.once false (Some 2000))) = false
  /\ is_scheduled (Sample.once false (Some 2000)) Sample.empty_world = false
  /\ enabled (base (self (@run (Sample.frozen_at 1000) (op_save true)
                            (mkState (Sample.once false (Some 2000))
                                     Sample.empty_world)))) = false
  /\ is_scheduled
       (self (@run (Sample.frozen_at 1000) (op_save true)
                (mkState (Sample.once false (Some 2000)) Sample.empty_world)))
       (world (@run (Sample.frozen_at 1000) (op_save true)
                 (mkState (Sample.once false (Some 2000)) Sample.empty_world)))
     = false.
Proof.
  split; [reflexivity |]. split; [reflexivity |].
  exact (proj1 (@disabled_record_not_scheduled (Sample.frozen_at 1000)
                  (op_save true)
                  (mkState (Sample.once false (Some 2000)) Sample.empty_world)
                  eq_refl)
               eq_refl).
Defined.

(** C3, as stated, fails on the sequence it names: an enabled one-off
    record is scheduled; the application then sets [enabled = False] and
    saves.  [save] calls [schedule()], which finds the record already
    scheduled and stops; nothing removes the queue entry, so the disabled
    record still has its id in the registry. *)
Lemma disabled_record_still_scheduled :
  let st0 := mkState (Sample.once true (Some 2000)) Sample.empty_world in
  let st1 := @run (Sample.frozen_at 1000) op_schedule st0 in
  let st2 := mkState (set_enabled false (self st1)) (world st1) in
  let st3 := @run (Sample.frozen_at 1000) (op_save true) st2 in
  is_scheduled (self st1) (world st1) = true
  /\ enabled (base (self st3)) = false
  /\ job_id (base (self st3)) = Some "job-A"
  /\ scheduled_job_registry (queues (world st3) "default") = ["job-A"]
  /\ is_scheduled (self st3) (world st3) = true.
Proof.
  cbv zeta. split; [reflexivity |]. split; [reflexivity |].
  split; [reflexivity |]. split; reflexivity.
Qed.

(** *** The calls an operation makes, in order *)

Lemma unschedule_log (st : state) :
  exists l, log (world (snd (unschedule st))) = (log (world st) ++ l)%list
            /\ Forall is_removal l.
Proof.
  unfold unschedule, BaseJob.unschedule. run_m. cbn.
  destruct (BaseJob.is_scheduled (self st) (world st)); cbn.
  - destruct (job_id (base (self st))) as [jid |]; cbn.
    + exists [QueueRemove (queue (base (self st))) jid;
              RegistryRemove (queue (base (self st))) jid].
      split; [rewrite <- app_assoc; reflexivity |].
      repeat constructor.
    + exists []. split; [rewrite app_nil_r; reflexivity | constructor].
  - exists []. split; [rewrite app_nil_r; reflexivity | constructor].
Qed.

Lemma schedule_time_log `{Environment} (st : state) :
  log (world (snd (_schedule_time st))) = log (world st).
Proof.
  unfold _schedule_time.
  destruct (job_type (self st)); try reflexivity.
  unfold CronJob._schedule_time. run_m. cbn.
  destruct (kind (self st)); try reflexivity.
  cbn. destruct (get_next_cron_time _ _); reflexivity.
Qed.

Lemma ready_for_schedule_log `{Environment} (st : state) :
  log (world (snd (ready_for_schedule st))) = log (world st).
Proof.
  destruct (ready_for_schedule_frame st) as ((n & ->) & _). reflexivity.
Qed.

Lemma schedule_log `{Environment} (st : state) :
  exists l, log (world (snd (schedule st))) = (log (world st) ++ l)%list
            /\ Forall is_enqueue l.
Proof.
  pose proof (ready_for_schedule_log st) as Hr.
  unfold schedule. run_m.
  destruct (ready_for_schedule st) as [[[] | e] st1]; cbn [snd negb] in *;
    try (exists []; split; [rewrite app_nil_r; exact Hr | constructor]).
  pose proof (schedule_time_log st1) as Ht.
  destruct (_schedule_time st1) as [[[t |] | e] st2]; cbn [snd] in Ht;
    unfold enqueue_at; cbn.
  - eexists [_]. split; [rewrite Ht, Hr; reflexivity |].
    repeat constructor.
  - exists []. split; [rewrite app_nil_r, Ht; exact Hr | constructor].
  - exists []. split; [rewrite app_nil_r, Ht; exact Hr | constructor].
Qed.

Lemma model_save_log (st : state) :
  exists row, model_save st = (Return tt, snd (model_save st))
              /\ log (world (snd (model_save st)))
                 = (log (world st) ++ [ModelSave row])%list.
Proof.
  unfold model_save. destruct (id (base (self st))); cbn; eexists; split; reflexivity.
Qed.

(** [save(schedule_job=True)] writes the row first, then calls
    [schedule()], then writes the row again when that returned. *)
Lemma save_log `{Environment} (st : state) :
  exists row l,
    log (world (snd (save true st))) = (log (world st) ++ ModelSave row :: l)%list.
Proof.
  unfold save, bind at 1.
  destruct (model_save_log st) as (row & E1 & L1).
  rewrite E1. set (st1 := snd (model_save st)) in *.
  unfold bind.
  destruct (schedule_log st1) as (l2 & L2 & _).
  destruct (schedule st1) as [[b | e] st2]; cbn [snd] in *.
  - destruct (model_save_log st2) as (row' & E3 & L3).
    rewrite E3. cbn [snd]. rewrite L3, L2, L1.
    exists row, (l2 ++ [ModelSave row'])%list.
    rewrite <- !app_assoc. reflexivity.
  - rewrite L2, L1. exists row, l2. rewrite <- app_assoc. reflexivity.
Qed.

Lemma first_by_name_in (rows : list job) (r : job) :
  first_by_name rows = Some r -> In r rows.
Proof.
  revert r. induction rows as [| x rows IH]; intros r Hf; [discriminate |].
  unfold first_by_name in Hf. cbn [fold_right] in Hf.
  fold (first_by_name rows) in Hf.
  destruct (first_by_name rows) as [m |].
  - destruct (String.leb _ _); injection Hf as <-; [left; reflexivity |].
    right. apply IH. reflexivity.
  - injection Hf as <-. left. reflexivity.
Qed.

Lemma first_by_name_none (rows : list job) :
  first_by_name rows = None -> rows = [].
Proof.
  destruct rows as [| x rows]; [reflexivity |].
  unfold first_by_name. cbn [fold_right]. fold (first_by_name rows).
  destruct (first_by_name rows) as [m |]; [destruct (String.leb _ _) |];
    discriminate.
Qed.

Lemma objects_filter_first_some (model : JOB_TYPE) (jid : string)
      (rows : list job) (r : job) :
  objects_filter_first model jid rows = Some r ->
  In r rows /\ job_type r = model /\ job_id (base r) = Some jid.
Proof.
  unfold objects_filter_first. intros Hf.
  apply first_by_name_in, filter_In in Hf. destruct Hf as [Hin Hb].
  apply andb_true_iff in Hb. destruct Hb as [Hm Hj].
  split; [exact Hin |]. split.
  - destruct (job_type r), model; (reflexivity || discriminate).
  - destruct (job_id (base r)) as [x |]; [| discriminate].
    apply String.eqb_eq in Hj. congruence.
Qed.

Lemma objects_filter_first_none (model : JOB_TYPE) (jid : string)
      (rows : list job) :
  objects_filter_first model jid rows = None ->
  forall r, In r rows -> job_type r = model -> job_id (base r) <> Some jid.
Proof.
  unfold objects_filter_first. intros Hf r Hin Hm Hj.
  apply first_by_name_none in Hf.
  assert (Hr : In r (filter (has_job_id model jid) rows)).
  { apply filter_In. split; [exact Hin |].
    unfold has_job_id. rewrite Hm, Hj, eqb_refl_str.
    destruct model; reflexivity. }
  rewrite Hf in Hr. exact Hr.
Qed.

(** C7: [callback_save_job] does nothing, and returns, when the run's
    metadata names no job kind or when no stored record of that kind has
    the run's id.  Otherwise it takes the first stored record of that kind
    whose [job_id] is the run's id and performs [unschedule()], then
    [schedule()], then [save()] on it, in that order: [unschedule()]
    returns, [schedule()] runs from the state it leaves, and [save()] runs
    from the state [schedule()] leaves (an exception of [schedule()] ends
    the callback).  The calls reach the queue and storage in that order:
    removals, then at most an enqueue, then the writes of [save()], which
    start with a write of the row. *)
Theorem callback_save_job_reschedules `{Environment} (j : rq_job) (w : World) :
  (meta_get_job_type j = None -> callback_save_job j w = (Return tt, w))
  /\ (forall model,
         meta_get_job_type j = Some model ->
         objects_filter_first model (rq_id j) (db w) = None ->
         callback_save_job j w = (Return tt, w)
         /\ forall r, In r (db w) -> job_type r = model ->
                      job_id (base r) <> Some (rq_id j))
  /\ (forall model scheduled_job,
         meta_get_job_type j = Some model ->
         objects_filter_first model (rq_id j) (db w) = Some scheduled_job ->
         In scheduled_job (db w)
         /\ job_type scheduled_job = model
         /\ job_id (base scheduled_job) = Some (rq_id j)
         /\ exists st1 l1 l2,
             unschedule (mkState scheduled_job w) = (Return true, st1)
             /\ log (world st1) = (log w ++ l1)%list
             /\ Forall is_removal l1
             /\ log (world (snd (schedule st1))) = (log w ++ l1 ++ l2)%list
             /\ Forall is_enqueue l2
             /\ match schedule st1 with
                | (Return _, st2) =>
                    callback_save_job j w
                    = (fst (save true st2), world (snd (save true st2)))
                    /\ exists row l3,
                        log (snd (callback_save_job j w))
                        = (log w ++ l1 ++ l2 ++ ModelSave row :: l3)%list
                | (Raise e, st2) =>
                    callback_save_job j w = (Raise e, world st2)
                end).
Proof.
  split; [| split].
  - intros Hm. unfold callback_save_job. rewrite Hm. reflexivity.
  - intros model Hm Hf. split.
    + unfold callback_save_job. rewrite Hm, Hf. reflexivity.
    + exact (objects_filter_first_none _ _ _ Hf).
  - intros model r Hm Hf.
    destruct (objects_filter_first_some _ _ _ _ Hf) as (Hin & Hty & Hid).
    split; [exact Hin |]. split; [exact Hty |]. split; [exact Hid |].
    destruct (unschedule_result (mkState r w)) as (w1 & Eu & _).
    destruct (unschedule_log (mkState r w)) as (l1 & L1 & F1).
    rewrite Eu in L1. cbn [snd self world] in Eu, L1.
    change (log (world (mkState (set_job_id None r) w1)) = (log w ++ l1)%list) in L1.
    remember (mkState (set_job_id None r) w1) as st1 eqn:Est1.
    destruct (schedule_log st1) as (l2 & L2 & F2).
    rewrite L1, <- app_assoc in L2.
    exists st1, l1, l2.
    split; [exact Eu |]. split; [exact L1 |]. split; [exact F1 |].
    split; [exact L2 |].
    split; [exact F2 |].
    assert (Hcb : callback_save_job j w =
                  match schedule st1 with
                  | (Return _, st2) =>
                      (fst (save true st2), world (snd (save true st2)))
                  | (Raise e, st2) => (Raise e, world st2)
                  end).
    { unfold callback_save_job. rewrite Hm, Hf.
      unfold reschedule, bind. fold unschedule. rewrite Eu.
      destruct (schedule st1) as [[b | e] st2];
        [destruct (save true st2) |]; reflexivity. }
    destruct (schedule st1) as [[b | e] st2]; cbn [snd] in L2.
    + split; [exact Hcb |].
      destruct (save_log st2) as (row & l3 & L3).
      exists row, l3. rewrite Hcb. cbn [snd].
      rewrite L3, L2, <- !app_assoc. reflexivity.
    + exact Hcb.
Qed.

(** A run of the callback: a one-minute record with three repeats, saved
    (and so scheduled as [job-A]) for the instant 200 s, is reconciled at
    210 s.  The entry [job-A] is removed, the record catches up by one
    interval and is enqueued again as [job-B], and the stored row carries
    the new id, instant and repeat count. *)
Example callback_save_job_sample :
  let saved :=
    @run (Sample.frozen_at 125000000) (op_save true)
      (mkState (Sample.every_minute true 200000000 (Some 3) None)
               Sample.empty_world) in
  let after :=
    @callback_save_job (Sample.frozen_at 210000000)
      (mkRqJob "job-A" (Some TRepeatableJob)) (world saved) in
  job_id (base (self saved)) = Some "job-A"
  /\ fst after = Return tt
  /\ scheduled_job_registry (queues (snd after) "default") = ["job-B"]
  /\ map (fun r => (job_id (base r), kind r)) (db (snd after))
     = [(Some "job-B", RepeatableJobFields (Some 260000000) (Some 2) 1 minutes)].
Proof.
  cbv zeta. split; [reflexivity |]. split; [reflexivity |].
  split; reflexivity.
Qed.

(** ** Further properties of the scheduling operations *)

Lemma schedule_time_world `{Environment} (st : state) :
  exists n, world (snd (_schedule_time st)) = advance_clock n (world st).
Proof.
  unfold _schedule_time.
  destruct (job_type (self st));
    try (exists 0%nat; symmetry; apply advance_clock_0).
  unfold CronJob._schedule_time. run_m. cbn.
  destruct (kind (self st));
    try (exists 0%nat; symmetry; apply advance_clock_0).
  cbn. destruct (get_next_cron_time _ _); exists 1%nat; reflexivity.
Qed.

Lemma job_type_set_advance (t r : option Z) (j : job) :
  job_type (set_advance t r j) = job_type j.
Proof. destruct j as [b [t0 | t0 r0 i u | r0 c]]; reflexivity. Qed.

Lemma meta_job_type_enqueue_args (j : job) :
  meta_job_type (enqueue_args j) = job_type j.
Proof. destruct j as [b [t0 | t0 r0 i u | r0 c]]; reflexivity. Qed.

Lemma schedule_outcome `{Environment} (st : state) :
  match fst (schedule st) with
  | Return true =>
      exists T jid,
        fst (_schedule_time (snd (ready_for_schedule st))) = Return (Some T)
        /\ log (world (snd (schedule st)))
           = (log (world st)
                ++ [EnqueueAt (queue (base (self st))) T
                              (job_type (self st), id (base (self st)))
                              (enqueue_args (self (snd (ready_for_schedule st))))
                              jid])%list
        /\ meta_job_type (enqueue_args (self (snd (ready_for_schedule st))))
           = job_type (self st)
        /\ jid = uuid4 (created (world st))
        /\ queue (base (self (snd (schedule st)))) = queue (base (self st))
        /\ job_id (base (self (snd (schedule st)))) = Some jid
        /\ db (world (snd (schedule st))) = db (world st)
        /\ forall q,
            queues (world (snd (schedule st))) q
            = if String.eqb q (queue (base (self st)))
              then mkRQueue
                     (jid :: scheduled_job_registry (queues (world st) q))
                     (pending (queues (world st) q))
              else queues (world st) q
  | _ =>
      log (world (snd (schedule st))) = log (world st)
      /\ db (world (snd (schedule st))) = db (world st)
      /\ queues (world (snd (schedule st))) = queues (world st)
      /\ job_id (base (self (snd (schedule st)))) = job_id (base (self st))
  end.
Proof.
  destruct (ready_for_schedule_frame st) as ((n & Hw1) & (t & r & Hs1)).
  unfold schedule. run_m.
  destruct (ready_for_schedule st) as [[[] | e] st1]; cbn [fst snd negb] in *.
  2,3: rewrite Hw1, Hs1, base_set_advance; repeat split; reflexivity.
  pose proof (schedule_time_self st1) as Hs2.
  destruct (schedule_time_world st1) as (m & Hw2).
  destruct (_schedule_time st1) as [[[T |] | e] st2]; cbn [fst snd] in *;
    unfold enqueue_at; cbn [fst snd].
  - exists T, (uuid4 (created (world st2))).
    rewrite Hs2, Hs1, Hw2, Hw1, base_set_advance, job_type_set_advance.
    cbn. rewrite ?base_set_advance.
    split; [reflexivity |]. split; [reflexivity |].
    split.
    + rewrite meta_job_type_enqueue_args. apply job_type_set_advance.
    + split; [reflexivity |]. split; [reflexivity |].
      split; [reflexivity |]. split; [reflexivity |].
      intros q.
      destruct (String.eqb_spec q (queue (base (self st)))) as [-> | _];
        reflexivity.
  - rewrite Hs2, Hs1, Hw2, Hw1, base_set_advance. repeat split; reflexivity.
  - rewrite Hs2, Hs1, Hw2, Hw1, base_set_advance. repeat split; reflexivity.
Qed.

(** X3: [schedule()] returns true exactly when it has enqueued.  When it
    returns true, one call [enqueue_at] was made, to the record's queue,
    at the instant [_schedule_time] gave after the check, with the
    arguments [(JOB_TYPE, id)] and a [meta] whose [job_type] is the
    record's [JOB_TYPE]; the id of the job created is stored in [job_id]
    and is in the scheduled-job registry of that queue.  When it returns
    false or raises, no call was made to the queue or to storage, the
    queues are as they were and [job_id] is unchanged. *)
Theorem schedule_true_iff_enqueued `{Environment} (st : state) :
  match fst (schedule st) with
  | Return true =>
      exists T jid,
        fst (_schedule_time (snd (ready_for_schedule st))) = Return (Some T)
        /\ log (world (snd (schedule st)))
           = (log (world st)
                ++ [EnqueueAt (queue (base (self st))) T
                              (job_type (self st), id (base (self st)))
                              (enqueue_args (self (snd (ready_for_schedule st))))
                              jid])%list
        /\ meta_job_type (enqueue_args (self (snd (ready_for_schedule st))))
           = job_type (self st)
        /\ job_id (base (self (snd (schedule st)))) = Some jid
        /\ In jid (scheduled_job_registry
                     (queues (world (snd (schedule st)))
                             (queue (base (self st)))))
  | _ =>
      log (world (snd (schedule st))) = log (world st)
      /\ queues (world (snd (schedule st))) = queues (world st)
      /\ job_id (base (self (snd (schedule st)))) = job_id (base (self st))
  end.
Proof.
  pose proof (schedule_outcome st) as Ho.
  destruct (fst (schedule st)) as [[] | e];
    try (destruct Ho as (Hlog & _ & Hq & Hid); repeat split; assumption).
  destruct Ho as (T & jid & HT & Hlog & Hmeta & _ & _ & Hid & _ & Hq).
  exists T, jid. repeat split; try assumption.
  rewrite Hq, String.eqb_refl. left. reflexivity.
Qed.

(** X4: a record that [schedule()] has just scheduled is not scheduled a
    second time: the next [schedule()] returns false at once, reads no
    clock, makes no call and changes nothing. *)
Theorem schedule_twice_enqueues_once `{Environment} (st st1 : state) :
  ids_nonempty ->
  schedule st = (Return true, st1) ->
  is_scheduled (self st1) (world st1) = true
  /\ schedule st1 = (Return false, st1).
Proof.
  intros Hids Hs.
  pose proof (schedule_outcome st) as Ho. rewrite Hs in Ho. cbn [fst snd] in Ho.
  destruct Ho as (T & jid & _ & _ & _ & Hjid & Hq & Hid & _ & Hqs).
  assert (Hlive : is_scheduled (self st1) (world st1) = true).
  { unfold is_scheduled, BaseJob.is_scheduled, get_job_ids.
    rewrite Hid, Hq, Hqs, String.eqb_refl. cbn.
    destruct (String.eqb_spec jid "") as [E | _].
    - exfalso. subst jid. exact (Hids _ E).
    - cbn. rewrite String.eqb_refl. reflexivity. }
  split; [exact Hlive |].
  apply schedule_not_ready, ready_blocked_by_base.
  unfold BaseJob.ready_for_schedule. unfold is_scheduled in Hlive.
  rewrite Hlive. reflexivity.
Qed.

Lemma schedule_twice_enqueues_once_witness :
  @ids_nonempty (Sample.frozen_at 1000)
  /\ @schedule (Sample.frozen_at 1000)
       (mkState (Sample.once true (Some 2000)) Sample.empty_world)
     = (Return true,
        snd (@schedule (Sample.frozen_at 1000)
               (mkState (Sample.once true (Some 2000)) Sample.empty_world)))
  /\ @schedule (Sample.frozen_at 1000)
       (snd (@schedule (Sample.frozen_at 1000)
               (mkState (Sample.once true (Some 2000)) Sample.empty_world)))
     = (Return false,
        snd (@schedule (Sample.frozen_at 1000)
               (mkState (Sample.once true (Some 2000)) Sample.empty_world))).
Proof.
  split; [apply sample_ids_nonempty |]. split; [reflexivity |].
  exact (proj2 (@schedule_twice_enqueues_once (Sample.frozen_at 1000)
                  (mkState (Sample.once true (Some 2000)) Sample.empty_world)
                  _ (sample_ids_nonempty 1000) eq_refl)).
Defined.

Lemma existsb_filter_out (jid : string) (l : list string) :
  existsb (String.eqb jid) (filter (fun x => negb (String.eqb x jid)) l) = false.
Proof.
  induction l as [| x l IH]; cbn; [reflexivity |].
  destruct (String.eqb_spec x jid) as [-> | Hne]; cbn; [exact IH |].
  rewrite IH. destruct (String.eqb_spec jid x) as [-> | _]; [contradiction |].
  reflexivity.
Qed.

Lemma in_filter_out (jid x : string) (l : list string) :
  In x (filter (fun y => negb (String.eqb y jid)) l) <-> In x l /\ x <> jid.
Proof.
  rewrite filter_In. split; intros [Hin Hb]; (split; [exact Hin |]).
  - destruct (String.eqb_spec x jid); [discriminate | assumption].
  - destruct (String.eqb_spec x jid); [contradiction | reflexivity].
Qed.

(** The world [unschedule()] leaves when the record was in the registry
    under [jid], queue by queue. *)
Lemma unschedule_world (st : state) :
  (is_scheduled (self st) (world st) = false
   /\ world (snd (unschedule st)) = world st)
  \/ (exists jid,
         is_scheduled (self st) (world st) = true
         /\ job_id (base (self st)) = Some jid
         /\ db (world (snd (unschedule st))) = db (world st)
         /\ forall q,
             queues (world (snd (unschedule st))) q
             = if String.eqb q (queue (base (self st)))
               then mkRQueue
                      (filter (fun x => negb (String.eqb x jid))
                              (scheduled_job_registry (queues (world st) q)))
                      (filter (fun x => negb (String.eqb x jid))
                              (pending (queues (world st) q)))
               else queues (world st) q).
Proof.
  unfold unschedule, BaseJob.unschedule, is_scheduled. run_m. cbn.
  destruct (BaseJob.is_scheduled (self st) (world st)) eqn:Hs; cbn.
  - right. unfold BaseJob.is_scheduled in Hs.
    destruct (job_id (base (self st))) as [jid |] eqn:Hid;
      [| cbn in Hs; discriminate].
    exists jid. cbn. split; [reflexivity |]. split; [reflexivity |].
    split; [reflexivity |].
    intros q. rewrite String.eqb_refl.
    destruct (String.eqb_spec q (queue (base (self st)))) as [-> | _];
      reflexivity.
  - left. split; reflexivity.
Qed.

Lemma old_id_not_live_after_unschedule (st : state) :
  is_scheduled (self st) (world (snd (unschedule st))) = false.
Proof.
  destruct (unschedule_world st) as [[Hs ->] | (jid & Hs & Hid & Hdb & Hq)];
    [exact Hs |].
  unfold is_scheduled, BaseJob.is_scheduled, get_job_ids in *.
  rewrite Hid in *. rewrite Hq, String.eqb_refl. cbn [scheduled_job_registry].
  destruct (negb (truthy_str (Some jid))); [reflexivity |].
  apply existsb_filter_out.
Qed.

Lemma unschedule_keeps_rows (st : state) :
  db (world (snd (unschedule st))) = db (world st).
Proof.
  destruct (unschedule_world st) as [[Hs ->] | (jid & Hs & Hid & Hdb & Hq)];
    [reflexivity | exact Hdb].
Qed.

(** X5: [unschedule()] takes the record's entry, and nothing else, out of
    the queue.  Afterwards the id the record had is no longer in the
    registry of its queue; every other id, and every id of every other
    queue, is in the registry and in the pending list exactly when it was
    before; the stored rows are untouched. *)
Theorem unschedule_removes_own_entry_only (st : state) :
  is_scheduled (self st) (world (snd (unschedule st))) = false
  /\ db (world (snd (unschedule st))) = db (world st)
  /\ forall q x,
      (q <> queue (base (self st)) \/ job_id (base (self st)) <> Some x) ->
      (In x (scheduled_job_registry (queues (world (snd (unschedule st))) q))
       <-> In x (scheduled_job_registry (queues (world st) q)))
      /\ (In x (pending (queues (world (snd (unschedule st))) q))
          <-> In x (pending (queues (world st) q))).
Proof.
  destruct (unschedule_world st) as [[Hs ->] | (jid & Hs & Hid & Hdb & Hq)].
  - split; [exact Hs |]. split; [reflexivity |]. intros q x _. split; reflexivity.
  - split; [| split; [exact Hdb |]].
    + unfold is_scheduled, BaseJob.is_scheduled, get_job_ids in *.
      rewrite Hid in *. rewrite Hq, String.eqb_refl. cbn [scheduled_job_registry].
      destruct (negb (truthy_str (Some jid))); [reflexivity |].
      apply existsb_filter_out.
    + intros q x Hother. rewrite Hq.
      destruct (String.eqb_spec q (queue (base (self st)))) as [-> | _];
        [| split; reflexivity].
      cbn [scheduled_job_registry pending].
      assert (Hx : x <> jid) by (destruct Hother; congruence).
      rewrite !in_filter_out. tauto.
Qed.

Lemma unschedule_removes_own_entry_only_witness :
  is_scheduled
    (self (snd (@schedule (Sample.frozen_at 1000)
                  (mkState (Sample.once true (Some 2000)) Sample.empty_world))))
    (world (snd (@schedule (Sample.frozen_at 1000)
                   (mkState (Sample.once true (Some 2000)) Sample.empty_world))))
  = true
  /\ is_scheduled
       (self (snd (@schedule (Sample.frozen_at 1000)
                     (mkState (Sample.once true (Some 2000)) Sample.empty_world))))
       (world (snd (unschedule
                      (snd (@schedule (Sample.frozen_at 1000)
                              (mkState (Sample.once true (Some 2000))
                                       Sample.empty_world))))))
     = false.
Proof.
  split; [reflexivity |].
  exact (proj1 (unschedule_removes_own_entry_only
                  (snd (@schedule (Sample.frozen_at 1000)
                          (mkState (Sample.once true (Some 2000))
                                   Sample.empty_world))))).
Defined.

(** X6: [schedule()] adds at most the entry it stores on the record and
    removes none.  An id is in a scheduled-job registry afterwards exactly
    when it was there before or it is the [job_id] that a successful
    [schedule()] has just stored, in the registry of the record's own
    queue; the pending lists and the stored rows are untouched. *)
Theorem schedule_adds_own_entry_only `{Environment} (st : state) :
  db (world (snd (schedule st))) = db (world st)
  /\ forall q x,
      (In x (scheduled_job_registry (queues (world (snd (schedule st))) q))
       <-> In x (scheduled_job_registry (queues (world st) q))
           \/ (fst (schedule st) = Return true
               /\ q = queue (base (self st))
               /\ job_id (base (self (snd (schedule st)))) = Some x))
      /\ pending (queues (world (snd (schedule st))) q)
         = pending (queues (world st) q).
Proof.
  pose proof (schedule_outcome st) as Ho.
  destruct (fst (schedule st)) as [[] | e].
  - destruct Ho as (T & jid & _ & _ & _ & _ & _ & Hid & Hdb & Hq).
    split; [exact Hdb |]. intros q x. rewrite Hq, Hid.
    destruct (String.eqb_spec q (queue (base (self st)))) as [-> | Hne];
      cbn [scheduled_job_registry pending In].
    + split; [| reflexivity]. split.
      * intros [<- | Hin]; [right; repeat split | left; exact Hin].
      * intros [Hin | (_ & _ & E)]; [right; exact Hin | left; congruence].
    + split; [| reflexivity]. split; [intros Hin; left; exact Hin |].
      intros [Hin | (_ & E & _)]; [exact Hin | contradiction].
  - destruct Ho as (_ & Hdb & Hq & _). split; [exact Hdb |].
    intros q x. rewrite Hq. split; [| reflexivity].
    split; [intros Hin; left; exact Hin |].
    intros [Hin | (E & _)]; [exact Hin | discriminate].
  - destruct Ho as (_ & Hdb & Hq & _). split; [exact Hdb |].
    intros q x. rewrite Hq. split; [| reflexivity].
    split; [intros Hin; left; exact Hin |].
    intros [Hin | (E & _)]; [exact Hin | discriminate].
Qed.

(** X7: [delete()] unschedules before it removes the row.  Whether the
    storage call returns or raises, the record ends with [job_id = None]
    and the id it had is no longer in the registry of its queue; when the
    storage call returns, no stored row has the record's type and primary
    key any more. *)
Theorem delete_unschedules_first (st : state) :
  job_id (base (self (snd (delete st)))) = None
  /\ is_scheduled (self st) (world (snd (delete st))) = false
  /\ (fst (delete st) = Return tt ->
      forall r, In r (db (world (snd (delete st)))) -> same_row (self st) r = false).
Proof.
  destruct (unschedule_result st) as (w1 & Eu & _).
  pose proof (old_id_not_live_after_unschedule st) as Hu.
  rewrite Eu in Hu. cbn [snd world] in Hu.
  unfold delete, bind. fold unschedule. rewrite Eu.
  unfold model_delete. cbn [self world].
  destruct (id (base (set_job_id None (self st)))) as [pk |] eqn:Hpk;
    cbn [fst snd self world].
  - split; [reflexivity |]. split.
    + rewrite <- Hu. apply is_scheduled_ext; reflexivity.
    + intros _ r Hin. cbn in Hin. apply filter_In in Hin.
      destruct Hin as [_ Hb]. apply negb_true_iff in Hb.
      rewrite <- Hb. unfold same_row. destruct (self st) as [[] ?]; reflexivity.
  - split; [reflexivity |]. split; [exact Hu | discriminate].
Qed.

(** *** What [save()] stores *)

Lemma in_upsert (j : job) (rows : list job) : In j (upsert j rows).
Proof.
  unfold upsert. destruct (existsb (same_row j) rows) eqn:He.
  - apply existsb_exists in He. destruct He as (r & Hin & Hr).
    apply in_map_iff. exists r. rewrite Hr. split; [reflexivity | exact Hin].
  - apply in_or_app. right. left. reflexivity.
Qed.

(** [super().save()] returns, gives the instance a primary key if it had
    none, and stores the instance as it then is. *)
Lemma model_save_stores (st : state) :
  model_save st = (Return tt, snd (model_save st))
  /\ (exists pk, self (snd (model_save st)) = set_id (Some pk) (self st)
                 /\ (id (base (self st)) <> None ->
                     id (base (self st)) = Some pk))
  /\ In (self (snd (model_save st))) (db (world (snd (model_save st))))
  /\ log (world (snd (model_save st)))
     = (log (world st) ++ [ModelSave (self (snd (model_save st)))])%list
  /\ queues (world (snd (model_save st))) = queues (world st).
Proof.
  unfold model_save. destruct (id (base (self st))) as [pk |] eqn:Hid;
    cbn [fst snd self world].
  - split; [reflexivity |]. split.
    + exists pk. split; [| reflexivity].
      rewrite <- Hid. destruct (self st) as [[] ?]; reflexivity.
    + split; [apply in_upsert |]. split; reflexivity.
  - split; [reflexivity |]. split.
    + eexists. split; [reflexivity | intros Hc; contradiction].
    + split; [cbn; apply in_or_app; right; left; reflexivity |].
      split; reflexivity.
Qed.



(** *** The repeat count *)

Lemma repeat_within_kind (r : option Z) (i : Z) (u : UNITS) (st st' : state) :
  kind (self st') = kind (self st) ->
  repeat_within r i u st -> repeat_within r i u st'.
Proof. intros Hk (t' & r' & E & Hr). exists t', r'. rewrite Hk. auto. Qed.

Lemma ready_keeps_repeat_within `{Environment} (r : option Z) (i : Z) (u : UNITS) :
  clock_monotone -> 0 <= i ->
  preserves (repeat_within r i u) ready_for_schedule.
Proof.
  intros Hm Hi st (t' & r' & Hk & Hr).
  assert (Hsame : repeat_within r i u st) by (exists t', r'; auto).
  destruct t' as [T |].
  2: { rewrite (repeatable_ready_no_time st _ _ _ Hk).
       destruct (BaseJob.ready_for_schedule _ _); exact Hsame. }
  rewrite (repeatable_ready_eq st _ _ _ _ Hk).
  destruct (BaseJob.ready_for_schedule _ _); [| exact Hsame].
  destruct (Z.ltb_spec T (reading (world st) 0)) as [Hpast |]; [| exact Hsame].
  destruct (Z.eqb_spec (i * RepeatableJob.unit_seconds u) 0) as [| Hnz];
    [exact Hsame |].
  cbn zeta.
  pose proof (unit_seconds_pos u) as Hu.
  pose proof (reading_mono (world st) 0 1 Hm ltac:(lia)) as H01.
  assert (Hgap : 1 <= ceil_div (reading (world st) 1 - T)
                          (timedelta_seconds (i * RepeatableJob.unit_seconds u))).
  { apply ceil_div_pos; [apply timedelta_seconds_pos; nia | lia]. }
  destruct r' as [R' |].
  - destruct (Z.leb_spec (ceil_div (reading (world st) 1 - T)
                            (timedelta_seconds (i * RepeatableJob.unit_seconds u)))
                         R') as [Hle |]; [| exact Hsame].
    cbn [snd self]. unfold set_advance. rewrite Hk.
    eexists _, _. split; [reflexivity |].
    destruct r as [R |].
    + destruct Hr as (R0 & E & Hb). injection E as <-.
      eexists. split; [reflexivity | lia].
    + discriminate.
  - cbn [snd self]. unfold set_advance. rewrite Hk.
    eexists _, _. split; [reflexivity |].
    destruct r as [R |]; [| reflexivity].
    destruct Hr as (R0 & E & _). discriminate.
Qed.

(** X10: the repeat count of an interval record is only ever counted
    down, and never below zero.  With a clock that does not run backwards
    and an interval that is not negative, every operation leaves a bounded
    [repeat] between 0 and its former value, and leaves an unbounded
    [repeat] ([None]) unbounded. *)
Theorem repeat_only_counts_down `{Environment}
        (o : operation) (st : state) (t r : option Z) (i : Z) (u : UNITS) :
  clock_monotone ->
  0 <= i ->
  kind (self st) = RepeatableJobFields t r i u ->
  (forall R, r = Some R -> 0 <= R) ->
  exists t' r',
    kind (self (run o st)) = RepeatableJobFields t' r' i u
    /\ match r with
       | None => r' = None
       | Some R => exists R', r' = Some R' /\ 0 <= R' <= R
       end.
Proof.
  intros Hm Hi Hk Hr.
  apply (run_keeps (repeat_within r i u)).
  - apply ready_keeps_repeat_within; assumption.
  - intros s HP.
    pose proof (ready_keeps_repeat_within r i u Hm Hi s HP) as HP1.
    destruct (schedule_self s) as [E | (jid & E)];
      (eapply repeat_within_kind; [| exact HP1]); rewrite E; reflexivity.
  - intros s. apply repeat_within_kind. rewrite unschedule_self. reflexivity.
  - intros s. apply repeat_within_kind.
    destruct (model_save_self s) as (pk & ->). reflexivity.
  - intros s. apply repeat_within_kind.
    destruct (model_delete_self s) as (pk & ->). reflexivity.
  - exists t, r. split; [exact Hk |].
    destruct r as [R |]; [| reflexivity].
    exists R. split; [reflexivity |]. specialize (Hr R eq_refl). lia.
Qed.

Lemma repeat_only_counts_down_witness :
  @clock_monotone (Sample.frozen_at 125000000)
  /\ 0 <= 1
  /\ exists t' r',
      kind (self (@run (Sample.frozen_at 125000000) op_reschedule
                    (mkState (Sample.every_minute true 0 (Some 3) None)
                             Sample.empty_world)))
      = RepeatableJobFields t' r' 1 minutes
      /\ exists R', r' = Some R' /\ 0 <= R' <= 3.
Proof.
  split; [apply sample_clock_monotone |]. split; [lia |].
  refine (@repeat_only_counts_down (Sample.frozen_at 125000000)
            op_reschedule
            (mkState (Sample.every_minute true 0 (Some 3) None) Sample.empty_world)
            (Some 0) (Some 3) 1 minutes (sample_clock_monotone _) _ eq_refl _).
  - lia.
  - intros R E. injection E as <-. lia.
Defined.

(** *** Where the catch-up lands *)

Lemma ceil_div_mono (n m d : Z) : 0 < d -> n <= m -> ceil_div n d <= ceil_div m d.
Proof.
  intros Hd Hnm.
  pose proof (ceil_div_bounds n d Hd). pose proof (ceil_div_bounds m d Hd). nia.
Qed.



(** X12: an exhausted series stays blocked.  Once the number of missed
    intervals exceeds the repeats left, the check answers false and leaves
    the record as it is at that instant and at every later one, whatever
    has happened to the queues and to storage since. *)
Theorem exhausted_series_stays_blocked `{Environment}
        (st : state) (T R i : Z) (u : UNITS) (later : World) :
  clock_monotone ->
  kind (self st) = RepeatableJobFields (Some T) (Some R) i u ->
  0 < RepeatableJob.interval_seconds (self st) ->
  T < reading (world st) 0 ->
  R < ceil_div (reading (world st) 1 - T)
               (timedelta_seconds (RepeatableJob.interval_seconds (self st))) ->
  (ticks (world st) <= ticks later)%nat ->
  exists st',
    ready_for_schedule (mkState (self st) later) = (Return false, st')
    /\ schedule (mkState (self st) later) = (Return false, st')
    /\ self st' = self st.
Proof.
  intros Hm Hk HI Hpast Hgap Hlater.
  rewrite (interval_seconds_eq _ _ _ _ _ Hk) in *.
  assert (Hr : forall k, reading (world st) k <= reading later k).
  { intros k. unfold reading. apply Hm. lia. }
  pose proof (Hr 0%nat) as Hr0. pose proof (Hr 1%nat) as Hr1.
  pose proof (reading_mono later 0 2 Hm ltac:(lia)) as H02.
  assert (Hnum : reading (world st) 1 - T <= reading later 1 - T) by lia.
  pose proof (ceil_div_mono _ _ _ (timedelta_seconds_pos _ HI) Hnum) as Hmono.
  assert (E : exists st',
             ready_for_schedule (mkState (self st) later) = (Return false, st')
             /\ self st' = self st).
  { rewrite (repeatable_ready_eq (mkState (self st) later) _ _ _ _ Hk).
    cbn [self world].
    destruct (BaseJob.ready_for_schedule (self st) later);
      [| eexists; split; reflexivity].
    replace (T <? reading later 0) with true by (symmetry; apply Z.ltb_lt; lia).
    replace (i * RepeatableJob.unit_seconds u =? 0) with false
      by (symmetry; apply Z.eqb_neq; lia).
    cbn zeta.
    replace (_ <=? R) with false by (symmetry; apply Z.leb_gt; lia).
    replace (T <? reading later 2) with true by (symmetry; apply Z.ltb_lt; lia).
    eexists; split; reflexivity. }
  destruct E as (st' & E & Hs). exists st'.
  split; [exact E |]. split; [exact (schedule_not_ready _ _ E) | exact Hs].
Qed.

Lemma exhausted_series_stays_blocked_witness :
  0 < RepeatableJob.interval_seconds (Sample.every_minute true 0 (Some 2) None)
  /\ 0 < @reading (Sample.frozen_at 125000000) Sample.empty_world 0
  /\ 2 < ceil_div (@reading (Sample.frozen_at 125000000) Sample.empty_world 1 - 0)
                  (timedelta_seconds 60)
  /\ exists st',
      @ready_for_schedule (Sample.frozen_at 125000000)
        (mkState (Sample.every_minute true 0 (Some 2) None)
                 (advance_clock 7 Sample.empty_world))
      = (Return false, st')
      /\ @schedule (Sample.frozen_at 125000000)
           (mkState (Sample.every_minute true 0 (Some 2) None)
                    (advance_clock 7 Sample.empty_world))
         = (Return false, st')
      /\ self st' = Sample.every_minute true 0 (Some 2) None.
Proof.
  split; [reflexivity |]. split; [reflexivity |]. split; [reflexivity |].
  refine (@exhausted_series_stays_blocked (Sample.frozen_at 125000000)
            (mkState (Sample.every_minute true 0 (Some 2) None) Sample.empty_world)
            0 2 1 minutes (advance_clock 7 Sample.empty_world)
            (sample_clock_monotone _) eq_refl eq_refl eq_refl eq_refl _).
  cbn. lia.
Defined.

(** *** A fixed-instant record after its time *)

Lemma unschedule_counters (st : state) :
  ticks (world (snd (unschedule st))) = ticks (world st)
  /\ created (world (snd (unschedule st))) = created (world st).
Proof.
  unfold unschedule, BaseJob.unschedule. run_m. cbn.
  destruct (BaseJob.is_scheduled (self st) (world st)); cbn;
    [destruct (job_id (base (self st))) |]; split; reflexivity.
Qed.

Lemma model_save_counters (st : state) :
  ticks (world (snd (model_save st))) = ticks (world st)
  /\ created (world (snd (model_save st))) = created (world st).
Proof.
  unfold model_save. destruct (id (base (self st))); split; reflexivity.
Qed.

Lemma state_eta (st : state) : mkState (self st) (world st) = st.
Proof. destruct st; reflexivity. Qed.

(** [schedule()] on a fixed-instant record whose instant has passed. *)
Lemma past_one_off_schedule `{Environment} (st : state) (T : Z) :
  kind (self st) = ScheduledJobFields (Some T) ->
  T < reading (world st) 0 ->
  exists n,
    schedule st = (Return false, mkState (self st) (advance_clock n (world st))).
Proof.
  intros Hk Hpast.
  pose proof (scheduled_ready_eq st (Some T) Hk) as Hr. cbn beta iota in Hr.
  replace (T <? reading (world st) 0) with true in Hr
    by (symmetry; apply Z.ltb_lt; lia).
  destruct (BaseJob.ready_for_schedule (self st) (world st)).
  - exists 1%nat. exact (schedule_not_ready _ _ Hr).
  - exists 0%nat. rewrite advance_clock_0, state_eta.
    exact (schedule_not_ready _ _ Hr).
Qed.

Lemma past_one_off_reschedule `{Environment} (st : state) (T : Z) :
  clock_monotone ->
  kind (self st) = ScheduledJobFields (Some T) ->
  T < reading (world st) 0 ->
  exists st',
    reschedule st = (Return tt, st')
    /\ (exists pk, self st' = set_id (Some pk) (set_job_id None (self st)))
    /\ created (world st') = created (world st)
    /\ In (self st') (db (world st'))
    /\ is_scheduled (self st) (world st') = false.
Proof.
  intros Hm Hk Hpast.
  destruct (unschedule_result st) as (w1 & Eu & _).
  pose proof (unschedule_counters st) as (Ht1 & Hc1).
  pose proof (old_id_not_live_after_unschedule st) as Hlive.
  rewrite Eu in Ht1, Hc1, Hlive. cbn [snd world] in Ht1, Hc1, Hlive.
  remember (mkState (set_job_id None (self st)) w1) as st1 eqn:Est1.
  assert (Hk1 : kind (self st1) = ScheduledJobFields (Some T))
    by (subst st1; exact Hk).
  assert (Hp1 : T < reading (world st1) 0).
  { subst st1. unfold reading in *. cbn [world]. rewrite Ht1. exact Hpast. }
  destruct (past_one_off_schedule st1 T Hk1 Hp1) as (n & Es1).
  remember (mkState (self st1) (advance_clock n (world st1))) as st2 eqn:Est2.
  destruct (model_save_stores st2) as (E3 & (pk & Hs3 & _) & _ & _ & Hq3).
  pose proof (model_save_counters st2) as (Ht3 & Hc3).
  remember (snd (model_save st2)) as st3 eqn:Est3.
  assert (Hk3 : kind (self st3) = ScheduledJobFields (Some T)).
  { rewrite Hs3. subst st2. cbn. exact Hk1. }
  assert (Hp3 : T < reading (world st3) 0).
  { unfold reading in *. rewrite Ht3. subst st2. cbn [world advance_clock ticks].
    pose proof (Hm (ticks (world st1)) (n + ticks (world st1))%nat ltac:(lia)).
    cbn [Nat.add] in *. lia. }
  destruct (past_one_off_schedule st3 T Hk3 Hp3) as (n' & Es3).
  remember (mkState (self st3) (advance_clock n' (world st3))) as st4 eqn:Est4.
  destruct (model_save_stores st4) as (E5 & (pk' & Hs5 & Hpk) & Hin5 & _ & Hq5).
  pose proof (model_save_counters st4) as (_ & Hc5).
  exists (snd (model_save st4)).
  split.
  { unfold reschedule, bind. fold unschedule. rewrite Eu, Es1.
    unfold save, bind. rewrite E3, Es3, E5. reflexivity. }
  split.
  { exists pk'. rewrite Hs5. subst st4. cbn [self]. rewrite Hs3.
    subst st2 st1. cbn [self]. destruct (self st) as [[] ?]; reflexivity. }
  split.
  { rewrite Hc5. subst st4. cbn [world advance_clock created].
    rewrite Hc3. subst st2 st1. cbn [world advance_clock created]. exact Hc1. }
  split; [exact Hin5 |].
  rewrite <- Hlive. apply is_scheduled_ext; [reflexivity | reflexivity |].
  rewrite Hq5. subst st4. cbn [world advance_clock queues].
  rewrite Hq3. subst st2 st1. reflexivity.
Qed.

(** X13: a fixed-instant job runs once.  When the callback finds a
    fixed-instant record whose [scheduled_time] has passed, it returns
    without creating any job: the record is unscheduled, both calls of
    [schedule()] (the callback's and the one inside [save()]) are blocked,
    and the row written to storage has [job_id = None]. *)
Theorem one_off_not_rescheduled `{Environment}
        (j : rq_job) (w : World) (model : JOB_TYPE) (rec : job) (T : Z) :
  clock_monotone ->
  meta_get_job_type j = Some model ->
  objects_filter_first model (rq_id j) (db w) = Some rec ->
  kind rec = ScheduledJobFields (Some T) ->
  T < reading w 0 ->
  exists w' row,
    callback_save_job j w = (Return tt, w')
    /\ created w' = created w
    /\ In row (db w')
    /\ kind row = kind rec
    /\ job_id (base row) = None
    /\ is_scheduled rec w' = false.
Proof.
  intros Hm Hj Hf Hk Hpast.
  destruct (past_one_off_reschedule (mkState rec w) T Hm Hk Hpast)
    as (st' & Er & (pk & Hs) & Hc & Hin & Hlive).
  exists (world st'), (self st').
  split.
  { unfold callback_save_job. rewrite Hj, Hf, Er. reflexivity. }
  split; [exact Hc |]. split; [exact Hin |].
  rewrite Hs. cbn [self]. repeat split. exact Hlive.
Qed.

Lemma one_off_not_rescheduled_witness :
  @clock_monotone (Sample.frozen_at 3000)
  /\ 2000 < @reading (Sample.frozen_at 3000) Sample.one_off_saved 0
  /\ exists w' row,
      @callback_save_job (Sample.frozen_at 3000)
        (mkRqJob "job-A" (Some TScheduledJob)) Sample.one_off_saved
      = (Return tt, w')
      /\ created w' = created Sample.one_off_saved
      /\ In row (db w')
      /\ kind row = ScheduledJobFields (Some 2000)
      /\ job_id (base row) = None
      /\ is_scheduled
           (set_job_id (Some "job-A") (set_id (Some 1) (Sample.once true (Some 2000))))
           w' = false.
Proof.
  split; [apply sample_clock_monotone |]. split; [reflexivity |].
  exact (@one_off_not_rescheduled (Sample.frozen_at 3000)
           (mkRqJob "job-A" (Some TScheduledJob)) Sample.one_off_saved
           TScheduledJob
           (set_job_id (Some "job-A") (set_id (Some 1) (Sample.once true (Some 2000))))
           2000 (sample_clock_monotone _) eq_refl eq_refl eq_refl eq_refl).
Defined.

(** *** Exceptions of the check *)

Lemma schedule_raises `{Environment} (st st1 : state) (e : exn) :
  ready_for_schedule st = (Raise e, st1) -> schedule st = (Raise e, st1).
Proof. intros Hr. unfold schedule, bind at 1. rewrite Hr. reflexivity. Qed.

(** X14: an interval record has no guard for a missing [scheduled_time].
    On an enabled, unscheduled interval record whose [scheduled_time] is
    [None], [ready_for_schedule] and [schedule()] raise [TypeError] at the
    first comparison with the clock; the record is unchanged and nothing is
    enqueued.  (A disabled or already scheduled one is answered false
    before the comparison.) *)
Theorem interval_record_without_time_raises `{Environment}
        (st : state) (r : option Z) (i : Z) (u : UNITS) :
  kind (self st) = RepeatableJobFields None r i u ->
  (enabled (base (self st)) = true ->
   is_scheduled (self st) (world st) = false ->
   ready_for_schedule st
   = (Raise TypeError, mkState (self st) (advance_clock 1 (world st)))
   /\ schedule st
      = (Raise TypeError, mkState (self st) (advance_clock 1 (world st))))
  /\ (BaseJob.ready_for_schedule (self st) (world st) = false ->
      ready_for_schedule st = (Return false, st)
      /\ schedule st = (Return false, st)).
Proof.
  intros Hk. pose proof (repeatable_ready_no_time st _ _ _ Hk) as Hr. split.
  - intros He Hs. rewrite (base_ready_true _ _ He Hs) in Hr.
    split; [exact Hr | exact (schedule_raises _ _ _ Hr)].
  - intros Hb. rewrite Hb in Hr.
    split; [exact Hr | exact (schedule_not_ready _ _ Hr)].
Qed.

Lemma interval_record_without_time_raises_witness :
  @ready_for_schedule (Sample.frozen_at 1000)
    (mkState (Sample.every 1 minutes None None) Sample.empty_world)
  = (Raise TypeError,
     mkState (Sample.every 1 minutes None None)
             (advance_clock 1 Sample.empty_world))
  /\ @schedule (Sample.frozen_at 1000)
       (mkState (Sample.every 1 minutes None None) Sample.empty_world)
     = (Raise TypeError,
        mkState (Sample.every 1 minutes None None)
                (advance_clock 1 Sample.empty_world)).
Proof.
  exact (proj1 (@interval_record_without_time_raises (Sample.frozen_at 1000)
                  (mkState (Sample.every 1 minutes None None) Sample.empty_world)
                  None 1 minutes eq_refl)
               eq_refl eq_refl).
Defined.

(** X15: an interval of zero divides by zero, but only once the record is
    due.  On an enabled, unscheduled interval record whose interval is 0
    seconds: while [scheduled_time] is not in the past the check makes no
    division and answers as for any other record, so the record can be
    scheduled; once [scheduled_time] is in the past, [ready_for_schedule]
    and [schedule()] raise [ZeroDivisionError], leaving the record
    unchanged and enqueuing nothing. *)
Theorem zero_interval_raises_when_due `{Environment}
        (st : state) (T : Z) (r : option Z) (i : Z) (u : UNITS) :
  kind (self st) = RepeatableJobFields (Some T) r i u ->
  RepeatableJob.interval_seconds (self st) = 0 ->
  enabled (base (self st)) = true ->
  is_scheduled (self st) (world st) = false ->
  (T < reading (world st) 0 ->
   ready_for_schedule st
   = (Raise ZeroDivisionError, mkState (self st) (advance_clock 2 (world st)))
   /\ schedule st
      = (Raise ZeroDivisionError, mkState (self st) (advance_clock 2 (world st))))
  /\ (reading (world st) 0 <= T ->
      ready_for_schedule st
      = (Return (negb (T <? reading (world st) 1)),
         mkState (self st) (advance_clock 2 (world st)))).
Proof.
  intros Hk HI He Hs.
  rewrite (interval_seconds_eq _ _ _ _ _ Hk) in HI.
  pose proof (repeatable_ready_eq st _ _ _ _ Hk) as Hr.
  rewrite (base_ready_true _ _ He Hs), HI in Hr. cbn [Z.eqb] in Hr.
  split.
  - intros Hpast.
    replace (T <? reading (world st) 0) with true in Hr
      by (symmetry; apply Z.ltb_lt; lia).
    split; [exact Hr | exact (schedule_raises _ _ _ Hr)].
  - intros Hfut.
    replace (T <? reading (world st) 0) with false in Hr
      by (symmetry; apply Z.ltb_ge; lia).
    exact Hr.
Qed.

Lemma zero_interval_raises_when_due_witness :
  RepeatableJob.interval_seconds (Sample.every 0 seconds (Some 2000) None) = 0
  /\ 2000 < @reading (Sample.frozen_at 3000) Sample.empty_world 0
  /\ @schedule (Sample.frozen_at 3000)
       (mkState (Sample.every 0 seconds (Some 2000) None) Sample.empty_world)
     = (Raise ZeroDivisionError,
        mkState (Sample.every 0 seconds (Some 2000) None)
                (advance_clock 2 Sample.empty_world))
  /\ @reading (Sample.frozen_at 1000) Sample.empty_world 0 <= 2000
  /\ @ready_for_schedule (Sample.frozen_at 1000)
       (mkState (Sample.every 0 seconds (Some 2000) None) Sample.empty_world)
     = (Return true,
        mkState (Sample.every 0 seconds (Some 2000) None)
                (advance_clock 2 Sample.empty_world)).
Proof.
  split; [reflexivity |]. split; [reflexivity |].
  split.
  { exact (proj2 (proj1 (@zero_interval_raises_when_due (Sample.frozen_at 3000)
                           (mkState (Sample.every 0 seconds (Some 2000) None)
                                    Sample.empty_world)
                           2000 None 0 seconds eq_refl eq_refl eq_refl eq_refl)
                        eq_refl)). }
  split; [cbn; lia |].
  refine (proj2 (@zero_interval_raises_when_due (Sample.frozen_at 1000)
                   (mkState (Sample.every 0 seconds (Some 2000) None)
                            Sample.empty_world)
                   2000 None 0 seconds eq_refl eq_refl eq_refl eq_refl) _).
  cbn. lia.
Defined.

(** X16: the callback lets an exception of [schedule()] through, after it
    has unscheduled and before it has stored anything.  If [schedule()]
    raises on the record the callback found, the callback raises the same
    exception; the record's entry has been removed from the registry, the
    calls made are removals only, and the stored rows are as they were (so
    the stored [job_id] still names the removed entry). *)
Theorem callback_lets_schedule_error_through `{Environment}
        (j : rq_job) (w : World) (model : JOB_TYPE) (rec : job)
        (e : exn) (st2 : state) :
  meta_get_job_type j = Some model ->
  objects_filter_first model (rq_id j) (db w) = Some rec ->
  schedule (snd (unschedule (mkState rec w))) = (Raise e, st2) ->
  callback_save_job j w = (Raise e, world st2)
  /\ db (world st2) = db w
  /\ In rec (db (world st2))
  /\ is_scheduled rec (world st2) = false
  /\ exists l, log (world st2) = (log w ++ l)%list /\ Forall is_removal l.
Proof.
  intros Hj Hf Hs.
  destruct (unschedule_result (mkState rec w)) as (w1 & Eu & _).
  pose proof (old_id_not_live_after_unschedule (mkState rec w)) as Hlive.
  destruct (unschedule_log (mkState rec w)) as (l & Hl & Fl).
  pose proof (unschedule_keeps_rows (mkState rec w)) as Hdb.
  pose proof (schedule_outcome (snd (unschedule (mkState rec w)))) as Ho.
  rewrite Hs in Ho. cbn [fst snd] in Ho.
  destruct Ho as (Hlog & Hdb2 & Hq & _).
  cbn [self world] in *.
  split.
  { unfold callback_save_job. rewrite Hj, Hf.
    unfold reschedule, bind. fold unschedule.
    rewrite Eu in Hs |- *. cbn [snd] in Hs. rewrite Hs. reflexivity. }
  split; [rewrite Hdb2; exact Hdb |].
  split.
  { rewrite Hdb2, Hdb. exact (proj1 (objects_filter_first_some _ _ _ _ Hf)). }
  split.
  { rewrite <- Hlive. apply is_scheduled_ext; [reflexivity | reflexivity | exact Hq]. }
  exists l. rewrite Hlog. split; assumption.
Qed.

Lemma callback_lets_schedule_error_through_witness :
  exists st2,
    @schedule (Sample.frozen_at 3000)
      (snd (unschedule
              (mkState (set_job_id (Some "job-A")
                          (set_id (Some 1) (Sample.every 0 seconds (Some 2000) None)))
                       (Sample.interval_saved 0))))
    = (Raise ZeroDivisionError, st2)
    /\ @callback_save_job (Sample.frozen_at 3000)
         (mkRqJob "job-A" (Some TRepeatableJob)) (Sample.interval_saved 0)
       = (Raise ZeroDivisionError, world st2)
    /\ db (world st2) = db (Sample.interval_saved 0)
    /\ is_scheduled
         (set_job_id (Some "job-A")
            (set_id (Some 1) (Sample.every 0 seconds (Some 2000) None)))
         (world st2) = false.
Proof.
  eexists. split; [reflexivity |].
  destruct (@callback_lets_schedule_error_through (Sample.frozen_at 3000)
              (mkRqJob "job-A" (Some TRepeatableJob)) (Sample.interval_saved 0)
              TRepeatableJob
              (set_job_id (Some "job-A")
                 (set_id (Some 1) (Sample.every 0 seconds (Some 2000) None)))
              ZeroDivisionError _ eq_refl eq_refl eq_refl)
    as (Hc & Hdb & _ & Hlive & _).
  split; [exact Hc |]. split; [exact Hdb | exact Hlive].
Defined.

(** *** What the enqueued job carries *)

Lemma schedule_true_self `{Environment} (st : state) :
  fst (schedule st) = Return true ->
  exists jid,
    self (snd (schedule st))
    = set_job_id (Some jid) (self (snd (ready_for_schedule st))).
Proof.
  unfold schedule. run_m.
  destruct (ready_for_schedule st) as [[[] | e] st1]; cbn [fst snd negb];
    try discriminate.
  pose proof (schedule_time_self st1) as Hs.
  destruct (_schedule_time st1) as [[[t |] | e] st2]; cbn [snd] in Hs;
    unfold enqueue_at; cbn [fst snd]; try discriminate.
  intros _. rewrite Hs. eexists. reflexivity.
Qed.

Lemma enqueue_args_set_job_id (v : option string) (j : job) :
  enqueue_args (set_job_id v j) = enqueue_args j.
Proof. destruct j as [b [t0 | t0 r0 i u | r0 c]]; reflexivity. Qed.

(** What [enqueue_args] puts in [meta] and which hints it forwards. *)
Lemma enqueue_args_hints (j : job) :
  meta_job_type (enqueue_args j) = job_type j
  /\ meta_repeat (enqueue_args j) = repeat_of j
  /\ meta_interval (enqueue_args j)
     = match kind j with
       | RepeatableJobFields _ _ _ _ => Some (RepeatableJob.interval_seconds j)
       | _ => None
       end
  /\ kw_result_ttl (enqueue_args j) = result_ttl (base j)
  /\ (forall t, kw_job_timeout (enqueue_args j) = Some t
                <-> timeout (base j) = Some t /\ t <> 0)
  /\ (forall b, kw_at_front (enqueue_args j) = Some b
                <-> at_front (base j) = Some true /\ b = true).
Proof.
  assert (Hto : forall o : option Z, forall t,
             (if truthy_int o then o else None) = Some t <-> o = Some t /\ t <> 0).
  { intros [x |] t; cbn; [| split; [discriminate | intros [E _]; discriminate]].
    destruct (Z.eqb_spec x 0) as [-> | Hx]; cbn; split.
    - discriminate.
    - intros [E Hne]. injection E as <-. contradiction.
    - intros E. injection E as <-. split; [reflexivity | exact Hx].
    - intros [E _]. exact E. }
  assert (Haf : forall o : option bool, forall b,
             (if truthy_bool o then o else None) = Some b
             <-> o = Some true /\ b = true).
  { intros [[] |] b; cbn; split;
      try discriminate;
      try (intros [E _]; discriminate).
    - intros E. injection E as <-. split; reflexivity.
    - intros [_ ->]. reflexivity. }
  destruct j as [bf [t0 | t0 r0 i u | r0 c]]; cbn;
    (split; [reflexivity |]); (split; [reflexivity |]);
    (split; [reflexivity |]); (split; [reflexivity |]);
    (split; [apply Hto | apply Haf]).
Qed.

(** X17: the job [schedule()] enqueues describes the record as it stands
    after scheduling.  When [schedule()] returns true, the one job enqueued
    has [meta.job_type] the record's [JOB_TYPE], [meta.repeat] the record's
    [repeat] (after any catch-up), [meta.interval] the interval in seconds
    on an interval record and none otherwise; [result_ttl] is forwarded
    whenever it is set, zero included, [job_timeout] only when [timeout] is
    set and not zero, [at_front] only when it is true; and on a
    fixed-instant or interval record the job is enqueued for the record's
    [scheduled_time] (after any catch-up). *)
Theorem enqueued_job_matches_record `{Environment} (st : state) :
  fst (schedule st) = Return true ->
  exists T jid kw,
    log (world (snd (schedule st)))
    = (log (world st)
         ++ [EnqueueAt (queue (base (self st))) T
                       (job_type (self st), id (base (self st))) kw jid])%list
    /\ job_id (base (self (snd (schedule st)))) = Some jid
    /\ meta_job_type kw = job_type (self (snd (schedule st)))
    /\ meta_repeat kw = repeat_of (self (snd (schedule st)))
    /\ meta_interval kw
       = match kind (self (snd (schedule st))) with
         | RepeatableJobFields _ _ _ _ =>
             Some (RepeatableJob.interval_seconds (self (snd (schedule st))))
         | _ => None
         end
    /\ kw_result_ttl kw = result_ttl (base (self (snd (schedule st))))
    /\ (forall t, kw_job_timeout kw = Some t
                  <-> timeout (base (self (snd (schedule st)))) = Some t /\ t <> 0)
    /\ (forall b, kw_at_front kw = Some b
                  <-> at_front (base (self (snd (schedule st)))) = Some true
                      /\ b = true)
    /\ (job_type (self st) <> TCronJob ->
        scheduled_time_of (self (snd (schedule st))) = Some T).
Proof.
  intros Ht.
  destruct (schedule_true_self st Ht) as (jid' & Hself).
  pose proof (schedule_outcome st) as Ho. rewrite Ht in Ho.
  destruct Ho as (T & jid & HT & Hlog & Hmeta & _ & _ & Hid & _).
  exists T, jid, (enqueue_args (self (snd (ready_for_schedule st)))).
  split; [exact Hlog |]. split; [exact Hid |].
  rewrite <- (enqueue_args_set_job_id (Some jid')), <- Hself.
  destruct (enqueue_args_hints (self (snd (schedule st))))
    as (H1 & H2 & H3 & H4 & H5 & H6).
  repeat (split; [assumption |]).
  intros Hnc.
  destruct (ready_for_schedule_frame st) as (_ & (t & r & Hs1)).
  assert (Hnc1 : job_type (self (snd (ready_for_schedule st))) <> TCronJob)
    by (rewrite Hs1, job_type_set_advance; exact Hnc).
  rewrite (schedule_time_of_mixin _ Hnc1) in HT. cbn [fst] in HT.
  injection HT as HT. rewrite Hself, <- HT.
  destruct (self (snd (ready_for_schedule st))) as [b k]. reflexivity.
Qed.

Lemma enqueued_job_matches_record_witness :
  fst (@schedule (Sample.frozen_at 125000000)
         (mkState (Sample.every_minute true 0 (Some 3) (Some 0)) Sample.empty_world))
  = Return true
  /\ exists T jid kw,
      log (world (snd (@schedule (Sample.frozen_at 125000000)
                         (mkState (Sample.every_minute true 0 (Some 3) (Some 0))
                                  Sample.empty_world))))
      = [EnqueueAt "default" T (TRepeatableJob, None) kw jid]
      /\ meta_repeat kw = Some 0
      /\ meta_interval kw = Some 60
      /\ kw_result_ttl kw = Some 0
      /\ T = 180000000.
Proof.
  split; [reflexivity |].
  destruct (@enqueued_job_matches_record (Sample.frozen_at 125000000)
              (mkState (Sample.every_minute true 0 (Some 3) (Some 0))
                       Sample.empty_world) eq_refl)
    as (T & jid & kw & Hlog & _ & _ & Hrep & Hint & Httl & _ & _ & HT).
  exists T, jid, kw.
  split; [exact Hlog |]. split; [exact Hrep |]. split; [exact Hint |].
  split; [exact Httl |].
  assert (E : Some T = Some 180000000)
    by (rewrite <- HT; [reflexivity | discriminate]).
  injection E as E. exact E.
Defined.

(** ** Validation *)

Lemma clean_interval_unit_eq `{Settings} (st : state) :
  RepeatableJob.clean_interval_unit st =
  (if RepeatableJob.interval_seconds (self st) <? RQ_SCHEDULER_INTERVAL
   then Raise ValueError
   else if RQ_SCHEDULER_INTERVAL =? 0
        then Raise ZeroDivisionError
        else if RepeatableJob.interval_seconds (self st) mod RQ_SCHEDULER_INTERVAL =? 0
             then Return tt
             else Raise ValueError,
   st).
Proof.
  unfold RepeatableJob.clean_interval_unit. run_m. cbn.
  destruct (_ <? _); cbn; [reflexivity |].
  destruct (RQ_SCHEDULER_INTERVAL =? 0); cbn; [reflexivity |].
  destruct (_ mod _ =? 0); reflexivity.
Qed.





Lemma base_clean_eq `{Settings} (st : state) :
  BaseJob.clean st =
  (if callable_func (callable (base (self st)))
   then if existsb (String.eqb (queue (base (self st)))) RQ_QUEUES
        then Return tt
        else Raise ValueError
   else Raise ValueError,
   st).
Proof.
  unfold BaseJob.clean, BaseJob.clean_callable, BaseJob.clean_queue. run_m. cbn.
  destruct (callable_func _); cbn; [| reflexivity].
  destruct (existsb _ _); reflexivity.
Qed.

Lemma clean_result_ttl_state (st : state) :
  snd (RepeatableJob.clean_result_ttl st) = st.
Proof.
  unfold RepeatableJob.clean_result_ttl. run_m. cbn.
  destruct (_ && _); reflexivity.
Qed.

Lemma queue_configured_iff (q : string) (keys : list string) :
  existsb (String.eqb q) keys = true <-> In q keys.
Proof.
  rewrite existsb_exists. split.
  - intros (x & Hin & E). apply String.eqb_eq in E. subst x. exact Hin.
  - intros Hin. exists q. split; [exact Hin | apply String.eqb_refl].
Qed.

(** X20: validation reads and never writes, and stops at the first check
    that fails.  [BaseJob.clean] passes exactly when the callable resolves
    and the queue name is a key of [RQ_QUEUES]; [RepeatableJob.clean]
    passes exactly when, in addition, [clean_interval_unit] and
    [clean_result_ttl] pass.  A record whose callable or queue is rejected
    is rejected with a [ValidationError] whatever its interval is, so the
    remainder by [RQ_SCHEDULER_INTERVAL] is not taken for it.  Neither
    changes the record or the world. *)
Theorem clean_accepts_iff `{Settings} (st : state) :
  snd (BaseJob.clean st) = st
  /\ snd (RepeatableJob.clean st) = st
  /\ (fst (BaseJob.clean st) = Return tt
      <-> callable_func (callable (base (self st))) = true
          /\ In (queue (base (self st))) RQ_QUEUES)
  /\ (fst (RepeatableJob.clean st) = Return tt
      <-> callable_func (callable (base (self st))) = true
          /\ In (queue (base (self st))) RQ_QUEUES
          /\ fst (RepeatableJob.clean_interval_unit st) = Return tt
          /\ fst (RepeatableJob.clean_result_ttl st) = Return tt)
  /\ (fst (BaseJob.clean st) <> Return tt ->
      fst (BaseJob.clean st) = Raise ValueError
      /\ fst (RepeatableJob.clean st) = Raise ValueError).
Proof.
  assert (Er : RepeatableJob.clean st =
               match fst (BaseJob.clean st) with
               | Raise e => (Raise e, st)
               | Return _ =>
                   match fst (RepeatableJob.clean_interval_unit st) with
                   | Raise e => (Raise e, st)
                   | Return _ => (fst (RepeatableJob.clean_result_ttl st), st)
                   end
               end).
  { unfold RepeatableJob.clean, bind.
    rewrite base_clean_eq. cbn [fst].
    destruct (callable_func _); [| reflexivity].
    destruct (existsb _ _); [| reflexivity].
    rewrite clean_interval_unit_eq. cbn [fst].
    pose proof (clean_result_ttl_state st) as Hs.
    destruct (_ <? _); [reflexivity |].
    destruct (RQ_SCHEDULER_INTERVAL =? 0); [reflexivity |].
    destruct (_ mod _ =? 0); [| reflexivity].
    destruct (RepeatableJob.clean_result_ttl st) as [r s']. cbn in *.
    subst s'. destruct r; reflexivity. }
  rewrite Er, base_clean_eq. cbn [fst snd].
  pose proof (queue_configured_iff (queue (base (self st))) RQ_QUEUES) as Hq.
  destruct (callable_func (callable (base (self st)))).
  - destruct (existsb (String.eqb (queue (base (self st)))) RQ_QUEUES).
    + assert (Hin : In (queue (base (self st))) RQ_QUEUES) by (apply Hq; reflexivity).
      split; [reflexivity |]. split.
      { destruct (fst (RepeatableJob.clean_interval_unit st)) as [[] | e];
          reflexivity. }
      split; [split; [intros _; split; [reflexivity | exact Hin] | reflexivity] |].
      split; [| intros Hc; contradiction].
      destruct (fst (RepeatableJob.clean_interval_unit st)) as [[] | e];
        cbn [fst].
      * destruct (fst (RepeatableJob.clean_result_ttl st)) as [[] | e]; split;
          try discriminate; try reflexivity.
        -- intros _. repeat split; assumption.
        -- intros (_ & _ & _ & E). exact E.
      * split; [discriminate | intros (_ & _ & E & _); discriminate].
    + assert (Hnin : ~ In (queue (base (self st))) RQ_QUEUES).
      { intros Hin. apply Hq in Hin. discriminate. }
      split; [reflexivity |]. split; [reflexivity |].
      split; [split; [discriminate | intros [_ Hin]; contradiction] |].
      split; [split; [discriminate | intros (_ & Hin & _); contradiction] |].
      intros _. split; reflexivity.
  - split; [reflexivity |]. split; [reflexivity |].
    split; [split; [discriminate | intros [E _]; discriminate] |].
    split; [split; [discriminate | intros (E & _); discriminate] |].
    intros _. split; reflexivity.
Qed.

(** ** Cron records *)

(** X21: a cron record is never blocked by time.  Its check does not read
    the clock: it answers whether the record is enabled and not already
    scheduled, and changes nothing.  So [schedule()] on an enabled,
    unscheduled cron record never returns false: it enqueues one job, for
    the instant [tools.get_next_cron_time] gives, and returns true, or it
    raises because the cron string has no next instant, with the record
    unchanged and nothing enqueued. *)
Theorem cron_record_not_blocked_by_time `{Environment}
        (st : state) (r : option Z) (c : string) :
  kind (self st) = CronJobFields r c ->
  ready_for_schedule st
  = (Return (BaseJob.ready_for_schedule (self st) (world st)), st)
  /\ (enabled (base (self st)) = true ->
      is_scheduled (self st) (world st) = false ->
      (exists T jid st',
          schedule st = (Return true, st')
          /\ self st' = set_job_id (Some jid) (self st)
          /\ log (world st')
             = (log (world st)
                  ++ [EnqueueAt (queue (base (self st))) T
                                (TCronJob, id (base (self st)))
                                (enqueue_args (self st)) jid])%list)
      \/ (exists st',
             schedule st = (Raise ValueError, st')
             /\ self st' = self st
             /\ log (world st') = log (world st)
             /\ queues (world st') = queues (world st))).
Proof.
  intros Hk. pose proof (cron_ready_eq st r c Hk) as Hr.
  split; [exact Hr |].
  intros He Hs. rewrite (base_ready_true _ _ He Hs) in Hr.
  assert (Hjt : job_type (self st) = TCronJob)
    by (unfold job_type; rewrite Hk; reflexivity).
  assert (Et : _schedule_time st =
               match get_next_cron_time c (now_at (ticks (world st))) with
               | Some T => (Return (Some T), mkState (self st) (tick (world st)))
               | None => (Raise ValueError, mkState (self st) (tick (world st)))
               end).
  { unfold _schedule_time. rewrite Hjt.
    unfold CronJob._schedule_time. run_m. cbn. rewrite Hk. cbn.
    destruct (get_next_cron_time _ _); reflexivity. }
  destruct (get_next_cron_time c (now_at (ticks (world st)))) as [T |].
  - left. eexists T, _, _. split.
    + unfold schedule, bind at 1. rewrite Hr. cbn [negb].
      unfold bind at 1. rewrite Et.
      run_m. unfold enqueue_at. cbn. reflexivity.
    + cbn. rewrite Hjt. split; reflexivity.
  - right. eexists. split.
    + unfold schedule, bind at 1. rewrite Hr. cbn [negb].
      unfold bind at 1. rewrite Et. reflexivity.
    + repeat split; reflexivity.
Qed.

Lemma cron_record_not_blocked_by_time_witness :
  @ready_for_schedule (Sample.frozen_at 1000)
    (mkState (Sample.cron true "0 * * * *") Sample.empty_world)
  = (Return true, mkState (Sample.cron true "0 * * * *") Sample.empty_world)
  /\ fst (@schedule (Sample.frozen_at 1000)
            (mkState (Sample.cron true "0 * * * *") Sample.empty_world))
     = Return true.
Proof.
  split.
  - exact (proj1 (@cron_record_not_blocked_by_time (Sample.frozen_at 1000)
                    (mkState (Sample.cron true "0 * * * *") Sample.empty_world)
                    None "0 * * * *" eq_refl)).
  - reflexivity.
Defined.

(** ** Saving an eligible record *)


